(** * ChromatogramList_ABI: the chromatogram catalog of the ABI WIFF reader

    A shallow embedding of
    [pwiz_aux/msrc/data/vendor_readers/ABI/ChromatogramList_ABI.cpp]
    and the properties of its index, its lookups and its record
    materialisation.

    Conventions:
    - [int] is [Z], [size_t] is [N], [double] is the kernel's IEEE 754
      binary64 [float];
    - [std::vector] is [list], read with stdpp's [!!]; an access past the
      end is undefined behaviour and is reported as [Undefined];
    - [std::map<string, size_t>] is [gmap string N];
    - [std::map<double, double>] is the list of its nodes in key order,
      with [operator[]] written as the search the container performs;
    - a member function that mutates the object takes the object and
      returns it next to its result. *)

From Stdlib Require Import ZArith Lia Floats Sorted Ascii.
From stdpp Require Import base option list gmap strings pretty.

Open Scope Z_scope.

Abbreviation double := float.

(** ** Machine integers *)

(** The conversion [(int) n] of a [size_t] (and the initialisation of an
    [int] from one): the value modulo 2^32, read as two's complement. *)
Definition int_of_size_t (n : N) : Z :=
  (Z.of_N n + 2 ^ 31) mod 2 ^ 32 - 2 ^ 31.

(** The conversion of a non-negative [int] to [size_t]. *)
Definition size_t_of_int (z : Z) : N := Z.to_N (z mod 2 ^ 64).

(** ** Outcomes of a call *)

(** A call returns, throws [std::runtime_error] with a message, or runs
    into undefined behaviour (here: a vector read past its end). *)
Inductive outcome (A : Type) : Type :=
| Returns (a : A)
| Throws (what : string)
| Undefined.
Arguments Returns {A} a.
Arguments Throws {A} what.
Arguments Undefined {A}.

(** ** Loops *)

(** [for (int i = lo; cond(i); ++i) body(i)] over a state [S]; [fuel]
    bounds the number of iterations. The counter is not wrapped: [++i]
    overflows only when the bound is [INT_MAX]. *)
Fixpoint for_fuel {S : Type} (fuel : nat) (i : Z) (cond : Z → bool)
    (body : Z → S → S) (s : S) : S :=
  match fuel with
  | O => s
  | Datatypes.S fuel' =>
      if cond i then for_fuel fuel' (i + 1) cond body (body i s) else s
  end.

(** [for (int i = lo; i <= hi; ++i)] *)
Definition for_le {S : Type} (lo hi : Z) (body : Z → S → S) (s : S) : S :=
  for_fuel (Z.to_nat (hi + 1 - lo)) lo (λ i, i <=? hi) body s.

(** [for (int i = lo; i < hi; ++i)] *)
Definition for_lt {S : Type} (lo hi : Z) (body : Z → S → S) (s : S) : S :=
  for_fuel (Z.to_nat (hi - lo)) lo (λ i, i <? hi) body s.

(** ** Controlled vocabulary *)

(** Modelled from the spec: the controlled vocabulary is declared outside
    the sources; these are the terms the file names. *)
Inductive CVID : Type :=
| CVID_Unknown
| MS_TIC_chromatogram
| MS_SRM_chromatogram
| MS_dwell_time
| MS_isolation_window_target_m_z
| MS_m_z
| MS_CID
| MS_collision_energy
| MS_number_of_counts
| UO_minute.

(** Modelled from the spec: a controlled-vocabulary-tagged parameter, with
    its value and units when it has them. *)
Record CVParam : Type := mkCVParam {
  cvid : CVID;
  value : option double;
  units : CVID
}.

(** Modelled from the spec: a free-form parameter, as its constructor is
    called here (name, value, type). *)
Record UserParam : Type := mkUserParam {
  up_name : string;
  up_value : string;
  up_type : string
}.

(** ** The raw acquisition handle

    [WiffFile], [Experiment] and [Target] are declared by the vendor API
    wrapper, outside the sources; they are taken as they are used here:
    counts of samples, periods and experiments, the experiment of a
    coordinate triple, and the vectors and targets an experiment hands
    out. The handle is read-only, so each call is a function of its
    arguments. Every theorem below holds for every handle. *)

(** Modelled from the spec: the scalar metadata of a transition (Q1/Q3
    target mass, dwell time, collision energy, declustering potential). *)
Record Target : Type := mkTarget {
  Q1 : double;
  Q3 : double;
  dwellTime : double;
  collisionEnergy : double;
  declusteringPotential : double
}.

(** Modelled from the spec: per-unit raw extraction, the time/intensity
    vectors of an experiment and of each of its transitions. *)
Record Experiment : Type := mkExperiment {
  getSRMSize : N;
  getSRM : N → Target;
  (** [getSIC(transition, times, intensities)] *)
  getSIC : N → list double * list double;
  (** [getTIC(times, intensities)] *)
  getTIC : list double * list double
}.

(** Modelled from the spec: hierarchy enumeration, the counts of samples,
    of periods per sample and of experiments per period. *)
Record WiffFile : Type := mkWiffFile {
  getSampleCount : Z;
  getPeriodCount : Z → Z;
  getExperimentCount : Z → Z → Z;
  getExperiment : Z → Z → Z → Experiment
}.

(** ** The output record *)

(** Modelled from the spec: the Record Model is declared outside the
    sources; the members are the ones [chromatogram] writes: identity,
    tagged metadata of the record, of its precursor and of its product,
    the default array length, and the time and intensity arrays with
    their units. *)
Record Chromatogram : Type := mkChromatogram {
  c_index : N;
  c_id : string;
  c_cvParams : list CVParam;
  c_defaultArrayLength : N;
  c_precursor_isolationWindow : list CVParam;
  c_precursor_activation : list CVParam;
  c_precursor_activation_userParams : list UserParam;
  c_product_isolationWindow : list CVParam;
  (** the two arrays of [setTimeIntensityArrays] with their units *)
  c_timeArray : list double;
  c_timeUnits : CVID;
  c_intensityArray : list double;
  c_intensityUnits : CVID
}.

(** Assignments to the members of a record under construction. *)
Definition c_set_index (n : N) (c : Chromatogram) : Chromatogram :=
  mkChromatogram n (c_id c) (c_cvParams c) (c_defaultArrayLength c)
    (c_precursor_isolationWindow c) (c_precursor_activation c)
    (c_precursor_activation_userParams c) (c_product_isolationWindow c)
    (c_timeArray c) (c_timeUnits c) (c_intensityArray c) (c_intensityUnits c).

Definition c_set_id (s : string) (c : Chromatogram) : Chromatogram :=
  mkChromatogram (c_index c) s (c_cvParams c) (c_defaultArrayLength c)
    (c_precursor_isolationWindow c) (c_precursor_activation c)
    (c_precursor_activation_userParams c) (c_product_isolationWindow c)
    (c_timeArray c) (c_timeUnits c) (c_intensityArray c) (c_intensityUnits c).

(** Modelled from the spec: [result->set(cvid)] and
    [result->set(cvid, value)] tag the record; here always with a term the
    record does not have yet. *)
Definition c_set (p : CVParam) (c : Chromatogram) : Chromatogram :=
  mkChromatogram (c_index c) (c_id c) (c_cvParams c ++ [p])
    (c_defaultArrayLength c)
    (c_precursor_isolationWindow c) (c_precursor_activation c)
    (c_precursor_activation_userParams c) (c_product_isolationWindow c)
    (c_timeArray c) (c_timeUnits c) (c_intensityArray c) (c_intensityUnits c).

Definition c_set_defaultArrayLength (n : N) (c : Chromatogram)
    : Chromatogram :=
  mkChromatogram (c_index c) (c_id c) (c_cvParams c) n
    (c_precursor_isolationWindow c) (c_precursor_activation c)
    (c_precursor_activation_userParams c) (c_product_isolationWindow c)
    (c_timeArray c) (c_timeUnits c) (c_intensityArray c) (c_intensityUnits c).

Definition c_set_precursor_isolationWindow (ps : list CVParam)
    (c : Chromatogram) : Chromatogram :=
  mkChromatogram (c_index c) (c_id c) (c_cvParams c) (c_defaultArrayLength c)
    ps (c_precursor_activation c)
    (c_precursor_activation_userParams c) (c_product_isolationWindow c)
    (c_timeArray c) (c_timeUnits c) (c_intensityArray c) (c_intensityUnits c).

Definition c_set_precursor_activation (ps : list CVParam)
    (us : list UserParam) (c : Chromatogram) : Chromatogram :=
  mkChromatogram (c_index c) (c_id c) (c_cvParams c) (c_defaultArrayLength c)
    (c_precursor_isolationWindow c) ps us (c_product_isolationWindow c)
    (c_timeArray c) (c_timeUnits c) (c_intensityArray c) (c_intensityUnits c).

Definition c_set_product_isolationWindow (ps : list CVParam)
    (c : Chromatogram) : Chromatogram :=
  mkChromatogram (c_index c) (c_id c) (c_cvParams c) (c_defaultArrayLength c)
    (c_precursor_isolationWindow c) (c_precursor_activation c)
    (c_precursor_activation_userParams c) ps
    (c_timeArray c) (c_timeUnits c) (c_intensityArray c) (c_intensityUnits c).

(** The data of the two arrays, through [getTimeArray()->data] and
    [getIntensityArray()->data]. *)
Definition c_set_arrays (times intensities : list double) (c : Chromatogram)
    : Chromatogram :=
  mkChromatogram (c_index c) (c_id c) (c_cvParams c) (c_defaultArrayLength c)
    (c_precursor_isolationWindow c) (c_precursor_activation c)
    (c_precursor_activation_userParams c) (c_product_isolationWindow c)
    times (c_timeUnits c) intensities (c_intensityUnits c).

(** Modelled from the spec:
    [setTimeIntensityArrays(times, intensities, timeUnits, intensityUnits)]
    gives the record its two arrays with their declared units. *)
Definition setTimeIntensityArrays (times intensities : list double)
    (timeUnits intensityUnits : CVID) (c : Chromatogram) : Chromatogram :=
  mkChromatogram (c_index c) (c_id c) (c_cvParams c) (c_defaultArrayLength c)
    (c_precursor_isolationWindow c) (c_precursor_activation c)
    (c_precursor_activation_userParams c) (c_product_isolationWindow c)
    times timeUnits intensities intensityUnits.

(** ** [std::map<double, double>] *)

(** The nodes of the map in key order. *)
Definition double_map : Type := list (double * double).

(** [m[k] += v]. [operator[]] takes the first node whose key is not less
    than [k] ([lower_bound]); if there is none, or [k] is less than its key,
    it inserts a node [(k, double())] there; the addition then goes to that
    node. The container asks for a strict weak order on the keys it is
    given, which [<] is on the doubles that are not NaN. *)
Fixpoint subscript_add (k v : double) (m : double_map) : double_map :=
  match m with
  | [] => [(k, PrimFloat.add 0 v)]
  | (k', v') :: m' =>
      if PrimFloat.ltb k' k then (k', v') :: subscript_add k v m'
      else if PrimFloat.ltb k k' then (k, PrimFloat.add 0 v) :: m
      else (k', PrimFloat.add v' v) :: m'
  end.

(** The inner loop of the aggregate case:
    [for (int iiii = 0, end = intensities.size(); iiii < end; ++iiii)
       fullFileTIC[times[iiii]] += intensities[iiii];]
    [None] when [times[iiii]] reads past the end of [times]. *)
Definition add_TIC (times intensities : list double)
    (fullFileTIC : option double_map) : option double_map :=
  let end_ := int_of_size_t (N.of_nat (length intensities)) in
  for_lt 0 end_
    (λ iiii acc,
       m ← acc;
       t ← times !! Z.to_nat iiii;
       x ← intensities !! Z.to_nat iiii;
       Some (subscript_add t x m))
    fullFileTIC.

Module ChromatogramList_ABI.

(** Modelled from the spec: the header that declares the class is not
    among the sources. An Index Entry is an identity ([index], [id])
    extended with the record kind, the coordinates and the cached target
    masses; the fields are the ones the file reads and writes. *)
Record IndexEntry : Type := mkIndexEntry {
  ie_index : N;
  ie_id : string;
  ie_chromatogramType : CVID;
  ie_sample : Z;
  ie_period : Z;
  ie_experiment : Z;
  ie_transition : Z;
  ie_q1 : double;
  ie_q3 : double
}.

(** [IndexEntry()] *)
Definition IndexEntry_default : IndexEntry :=
  mkIndexEntry 0%N "" CVID_Unknown 0 0 0 0 0%float 0%float.

(** Modelled from the spec: the object, with the members the file uses,
    the constructor's arguments [wifffile_] and [sample] and the mutable
    [size_], [indexInitialized_], [index_] and [idToIndexMap_] (the
    last three as [SpectrumList_Thermo.hpp] declares them for its
    catalog). *)
Record t : Type := mk {
  wifffile_ : WiffFile;
  sample : Z;
  size_ : N;
  indexInitialized_ : bool;
  index_ : list IndexEntry;
  idToIndexMap_ : gmap string N
}.

(** The constructor. *)
Definition new (wifffile : WiffFile) (sample : Z) : t :=
  mk wifffile sample 0%N false [] ∅.

Definition set_index_ (v : list IndexEntry) (self : t) : t :=
  mk (wifffile_ self) (sample self) (size_ self) (indexInitialized_ self)
     v (idToIndexMap_ self).

Definition set_size_ (n : N) (self : t) : t :=
  mk (wifffile_ self) (sample self) n (indexInitialized_ self)
     (index_ self) (idToIndexMap_ self).

Definition set_indexInitialized_ (b : bool) (self : t) : t :=
  mk (wifffile_ self) (sample self) (size_ self) b
     (index_ self) (idToIndexMap_ self).

(** [v.push_back(IndexEntry()); IndexEntry& ie = v.back();] followed by the
    assignments to the fields of [ie]: [fill] gets [v.size()] as it is
    after the push and gives the entry as the assignments leave it. *)
Definition push_back_entry (fill : N → IndexEntry) (v : list IndexEntry)
    : list IndexEntry :=
  let v' := v ++ [IndexEntry_default] in
  <[Nat.pred (length v') := fill (N.of_nat (length v'))]> v'.

Section Formatting.

(** The text the C++ library gives a [double]: [operator<<] on a stream and
    [boost::lexical_cast<string>]. *)
Context (ostream_double lexical_cast_double : double → string).

(** The id of a transition, as the [ostringstream] builds it. *)
Definition srm_id (q1 q3 : double) (sample period experiment transition : Z)
    : string :=
  let oss := "" in
  let oss := oss +:+ "SRM SIC Q1=" in
  let oss := oss +:+ ostream_double q1 in
  let oss := oss +:+ " Q3=" in
  let oss := oss +:+ ostream_double q3 in
  let oss := oss +:+ " sample=" in
  let oss := oss +:+ pretty sample in
  let oss := oss +:+ " period=" in
  let oss := oss +:+ pretty period in
  let oss := oss +:+ " experiment=" in
  let oss := oss +:+ pretty experiment in
  let oss := oss +:+ " transition=" in
  let oss := oss +:+ pretty transition in
  oss.

(** [createIndex()] *)
Definition createIndex (self : t) : t :=
  let self :=
    set_index_
      (push_back_entry
         (λ sz, mkIndexEntry (sz - 1)%N "TIC" MS_TIC_chromatogram
                  0 0 0 0 0%float 0%float)
         (index_ self))
      self in
  let periodCount := getPeriodCount (wifffile_ self) (sample self) in
  let self :=
    for_le 1 periodCount
      (λ ii self,
         let experimentCount :=
           getExperimentCount (wifffile_ self) (sample self) ii in
         for_le 1 experimentCount
           (λ iii self,
              let msExperiment :=
                getExperiment (wifffile_ self) (sample self) ii iii in
              for_lt 0 (int_of_size_t (getSRMSize msExperiment))
                (λ iiii self,
                   let target := getSRM msExperiment (size_t_of_int iiii) in
                   set_index_
                     (push_back_entry
                        (λ sz,
                           mkIndexEntry (sz - 1)%N
                             (srm_id (Q1 target) (Q3 target) (sample self)
                                ii iii iiii)
                             MS_SRM_chromatogram
                             (sample self) ii iii iiii
                             (Q1 target) (Q3 target))
                        (index_ self))
                     self)
                self)
           self)
      self in
  set_size_ (N.of_nat (length (index_ self))) self.

(** [boost::call_once(indexInitialized_, createIndex)], one caller at a
    time: the first call runs [createIndex] and sets the flag. *)
Definition call_once (self : t) : t :=
  if indexInitialized_ self then self
  else set_indexInitialized_ true (createIndex self).

(** [size()] *)
Definition size (self : t) : N * t :=
  let self := call_once self in
  (size_ self, self).

(** [chromatogramIdentity(index)] *)
Definition chromatogramIdentity (index : N) (self : t)
    : outcome IndexEntry * t :=
  let self := call_once self in
  if (size_ self <? index)%N (* index > size_ *) then
    (Throws ("[ChromatogramList_ABI::chromatogramIdentity()] Bad index: "
             +:+ pretty index), self)
  else
    (match index_ self !! N.to_nat index with
     | Some ie => Returns ie
     | None => Undefined
     end, self).

(** [find(id)] *)
Definition find (id : string) (self : t) : N * t :=
  let self := call_once self in
  (match idToIndexMap_ self !! id with
   | None => size_ self
   | Some second => second
   end, self).

(** [new Chromatogram] *)
Definition Chromatogram_default : Chromatogram :=
  mkChromatogram 0%N "" [] 0%N [] [] [] [] [] CVID_Unknown [] CVID_Unknown.

(** The loops of the aggregate case over every sample, period and
    experiment of the file, which build the map [fullFileTIC]; [None] when
    one of them reads past the end of a vector. *)
Definition fullFileTIC (wifffile : WiffFile) : option double_map :=
  let sampleCount := getSampleCount wifffile in
  for_le 1 sampleCount
    (λ i acc,
       let periodCount := getPeriodCount wifffile i in
       for_le 1 periodCount
         (λ ii acc,
            let experimentCount := getExperimentCount wifffile i ii in
            for_le 1 experimentCount
              (λ iii acc,
                 let msExperiment := getExperiment wifffile i ii iii in
                 let '(times, intensities) := getTIC msExperiment in
                 add_TIC times intensities acc)
              acc)
         acc)
    (Some []).

(** The loop over the map's nodes that pushes each key and value onto the
    two output vectors. *)
Definition push_nodes (m : double_map) (arrays : list double * list double)
    : list double * list double :=
  fold_left (λ arrays itr, (arrays.1 ++ [itr.1], arrays.2 ++ [itr.2]))
    m arrays.

(** The body of [chromatogram] below its bounds check, for the entry [ie]
    read from [index_[index]]: the new record and the [switch] on the
    entry's kind. [new] throws when it cannot allocate, so the test of
    [result.get()] never fires. *)
Definition chromatogram_body (wifffile : WiffFile) (index : N)
    (ie : IndexEntry) (getBinaryData : bool) : outcome Chromatogram :=
  let result := Chromatogram_default in
  let result := c_set_index index result in
  let result := c_set_id (ie_id ie) result in
  let result :=
    c_set (mkCVParam (ie_chromatogramType ie) None CVID_Unknown) result in
  match ie_chromatogramType ie with
  | MS_TIC_chromatogram =>
      match fullFileTIC wifffile with
      | None => Undefined
      | Some fullFileTIC =>
          let result :=
            setTimeIntensityArrays [] [] UO_minute MS_number_of_counts
              result in
          let result :=
            if getBinaryData then
              let arrays :=
                push_nodes fullFileTIC
                  (c_timeArray result, c_intensityArray result) in
              c_set_arrays arrays.1 arrays.2 result
            else result in
          Returns
            (c_set_defaultArrayLength (N.of_nat (length fullFileTIC)) result)
      end
  | MS_SRM_chromatogram =>
      let experiment :=
        getExperiment wifffile
          (ie_sample ie) (ie_period ie) (ie_experiment ie) in
      let target := getSRM experiment (size_t_of_int (ie_transition ie)) in
      let result :=
        c_set (mkCVParam MS_dwell_time (Some (dwellTime target))
                 CVID_Unknown) result in
      let result :=
        c_set_precursor_isolationWindow
          [mkCVParam MS_isolation_window_target_m_z (Some (ie_q1 ie)) MS_m_z]
          result in
      let result :=
        c_set_precursor_activation
          [mkCVParam MS_CID None CVID_Unknown;
           mkCVParam MS_collision_energy (Some (collisionEnergy target))
             CVID_Unknown]
          [mkUserParam "MS_declustering_potential"
             (lexical_cast_double (declusteringPotential target))
             "xs:float"]
          result in
      let result :=
        c_set_product_isolationWindow
          [mkCVParam MS_isolation_window_target_m_z (Some (ie_q3 ie)) MS_m_z]
          result in
      let result :=
        setTimeIntensityArrays [] [] UO_minute MS_number_of_counts result in
      let '(times, intensities) :=
        getSIC experiment (size_t_of_int (ie_transition ie)) in
      let result :=
        c_set_defaultArrayLength (N.of_nat (length times)) result in
      let result :=
        if getBinaryData then c_set_arrays times intensities result
        else result in
      Returns result
  | _ => Returns result
  end.

(** [chromatogram(index, getBinaryData)] *)
Definition chromatogram (index : N) (getBinaryData : bool) (self : t)
    : outcome Chromatogram * t :=
  let self := call_once self in
  if (size_ self <? index)%N (* index > size_ *) then
    (Throws ("[ChromatogramList_ABI::chromatogram()] Bad index: "
             +:+ pretty index), self)
  else
    (match index_ self !! N.to_nat index with
     | None => Undefined
     | Some ie => chromatogram_body (wifffile_ self) index ie getBinaryData
     end, self).

End Formatting.

End ChromatogramList_ABI.

(** ** Fixtures *)

Module Fixture.

(** Two transitions, and a TIC with a point at 1.23 (the binary64 nearest
    to it) of intensity 5. *)
Definition experiment_a : Experiment :=
  mkExperiment 2
    (λ tr, if (tr =? 0)%N then mkTarget 400 200 0x1.999999999999ap-4 30 80
           else mkTarget 500 250 0x1.999999999999ap-4 35 80)
    (λ tr, if (tr =? 0)%N then ([1; 2; 3], [10; 20; 30])
           else ([1; 2], [7; 9]))%float
    ([0x1.3ae147ae147aep+0; 2], [5; 1])%float.

(** One transition, and a TIC with a point at the same time 1.23 of
    intensity 7. *)
Definition experiment_b : Experiment :=
  mkExperiment 1
    (λ _, mkTarget 600 300 0x1.999999999999ap-4 40 80)
    (λ _, ([1; 2; 3; 4], [1; 1; 2; 3]))%float
    ([0x1.3ae147ae147aep+0], [7])%float.

(** No transition; a TIC with one point at 0.5. *)
Definition experiment_c : Experiment :=
  mkExperiment 0
    (λ _, mkTarget 0 0 0 0 0)
    (λ _, ([], []))
    ([0.5], [3])%float.

(** Two samples of one period each; sample 1 holds [experiment_a] and
    [experiment_b], sample 2 holds [experiment_c]. *)
Definition two_samples : WiffFile :=
  mkWiffFile 2
    (λ _, 1)
    (λ s _, if s =? 1 then 2 else 1)
    (λ s _ e, if s =? 1 then (if e =? 1 then experiment_a else experiment_b)
              else experiment_c).

(** One sample, one period, two experiments whose TICs are the single
    points (1.23, 5) and (1.23, 7). *)
Definition same_time : WiffFile :=
  mkWiffFile 1 (λ _, 1) (λ _ _, 2)
    (λ _ _ e,
       mkExperiment 0 (λ _, mkTarget 0 0 0 0 0) (λ _, ([], []))
         (if e =? 1 then ([0x1.3ae147ae147aep+0], [5])%float
          else ([0x1.3ae147ae147aep+0], [7])%float)).

(** A sample without periods. *)
Definition no_periods : WiffFile :=
  mkWiffFile 1 (λ _, 0) (λ _ _, 0) (λ _ _ _, experiment_c).

(** A stand-in for the library's number formatting: integral values in
    decimal, the others as mantissa and binary exponent. *)
Definition show_double (x : double) : string :=
  match Prim2SF x with
  | S754_zero _ => "0"
  | S754_infinity s => if s then "-inf" else "inf"
  | S754_nan => "nan"
  | S754_finite s m e =>
      let sign := if s then "-" else "" in
      if 0 <=? e then sign +:+ pretty (Z.pos m * 2 ^ e)
      else if Z.pos m mod 2 ^ (- e) =? 0
           then sign +:+ pretty (Z.pos m / 2 ^ (- e))
           else sign +:+ pretty (Z.pos m) +:+ "p" +:+ pretty e
  end.

(** An experiment with a time more than it has intensities. *)
Definition experiment_surplus : Experiment :=
  mkExperiment 0 (λ _, mkTarget 0 0 0 0 0) (λ _, ([], []))
    ([1; 2; 3], [5; 6])%float.

(** An experiment with a time less than it has intensities. *)
Definition experiment_short : Experiment :=
  mkExperiment 0 (λ _, mkTarget 0 0 0 0 0) (λ _, ([], []))
    ([1], [5; 6])%float.

(** A file of one sample, one period and the one experiment [e]. *)
Definition one_experiment (e : Experiment) : WiffFile :=
  mkWiffFile 1 (λ _, 1) (λ _ _, 1) (λ _ _ _, e).

(** One sample, one period, two experiments with the TIC points (2, 5),
    (1, 6) and (1.5, 7): no time twice. *)
Definition distinct_times : WiffFile :=
  mkWiffFile 1 (λ _, 1) (λ _ _, 2)
    (λ _ _ e,
       mkExperiment 0 (λ _, mkTarget 0 0 0 0 0) (λ _, ([], []))
         (if e =? 1 then ([2; 1], [5; 6])%float
          else ([1.5], [7])%float)).

End Fixture.

(** ** The enumeration the index follows *)

(** The transitions of a sample in period, experiment, transition order;
    periods and experiments count from 1, transitions from 0, and the
    number of transitions is the one the loop reads through its [int]
    cast. *)
Definition transitions_of (wifffile : WiffFile) (sample : Z)
    : list (Z * Z * Z) :=
  ii ← seqZ 1 (getPeriodCount wifffile sample);
  iii ← seqZ 1 (getExperimentCount wifffile sample ii);
  iiii ← seqZ 0
    (int_of_size_t (getSRMSize (getExperiment wifffile sample ii iii)));
  [(ii, iii, iiii)].

(** The experiments of a file in sample, period, experiment order, all
    counted from 1. *)
Definition experiments_of (wifffile : WiffFile) : list Experiment :=
  i ← seqZ 1 (getSampleCount wifffile);
  ii ← seqZ 1 (getPeriodCount wifffile i);
  iii ← seqZ 1 (getExperimentCount wifffile i ii);
  [getExperiment wifffile i ii iii].

Import ChromatogramList_ABI.

(** ** The index as a list *)

(** The aggregate entry at position [pos]. *)
Definition TIC_entry (pos : N) : IndexEntry :=
  mkIndexEntry pos "TIC" MS_TIC_chromatogram 0 0 0 0 0%float 0%float.

Section IndexDescription.

Context (ostream_double : double → string).

(** The fixed template of a transition's id. *)
Definition srm_template (q1 q3 : double)
    (sample period experiment transition : Z) : string :=
  String.concat ""
    ["SRM SIC Q1="; ostream_double q1;
     " Q3="; ostream_double q3;
     " sample="; pretty sample;
     " period="; pretty period;
     " experiment="; pretty experiment;
     " transition="; pretty transition].

(** The entry of the transition at coordinates [c] of [sample], stored at
    position [pos]. *)
Definition SRM_entry (wifffile : WiffFile) (sample : Z) (pos : N)
    (c : Z * Z * Z) : IndexEntry :=
  let '(period, experiment, transition) := c in
  let target :=
    getSRM (getExperiment wifffile sample period experiment)
      (size_t_of_int transition) in
  mkIndexEntry pos
    (srm_template (Q1 target) (Q3 target) sample period experiment transition)
    MS_SRM_chromatogram sample period experiment transition
    (Q1 target) (Q3 target).

(** The index of a catalog bound to [sample]: the aggregate entry, then
    the transitions in enumeration order, each at its own position. *)
Definition index_of (wifffile : WiffFile) (sample : Z) : list IndexEntry :=
  TIC_entry 0
  :: imap (λ k c, SRM_entry wifffile sample (N.of_nat (S k)) c)
       (transitions_of wifffile sample).

(** One step of the enumeration on the vector alone. *)
Definition push_SRM (wifffile : WiffFile) (sample : Z) (v : list IndexEntry)
    (c : Z * Z * Z) : list IndexEntry :=
  v ++ [SRM_entry wifffile sample (N.of_nat (length v)) c].

(** The catalog once its index is built. *)
Definition indexed (wifffile : WiffFile) (sample : Z) : t :=
  mk wifffile sample (N.of_nat (length (index_of wifffile sample))) true
    (index_of wifffile sample) ∅.

(** The states of a catalog: as constructed, and after any number of
    public calls, each of which leaves the object as [call_once] does. *)
Inductive reachable : t → Prop :=
| reachable_new (wifffile : WiffFile) (sample : Z) :
    reachable (new wifffile sample)
| reachable_call (self : t) :
    reachable self → reachable (call_once ostream_double self).

End IndexDescription.

(** ** The aggregate record described *)

(** Two keys neither of which is less than the other: the keys
    [std::map<double, double>] takes for the same. *)
Definition key_equiv (a b : double) : bool :=
  negb (PrimFloat.ltb a b) && negb (PrimFloat.ltb b a).

(** The value the map holds for a key equivalent to [t], if any. *)
Definition lookup_key (t : double) (m : double_map) : option double :=
  snd <$> List.find (λ kv, key_equiv kv.1 t) m.

(** Keys in strictly ascending order. *)
Definition ascending (keys : list double) : Prop :=
  StronglySorted (λ a b, PrimFloat.ltb a b = true) keys.

(** One point added to the map. *)
Definition add_point (m : double_map) (p : double * double) : double_map :=
  subscript_add p.1 p.2 m.

(** The (time, intensity) points of a file, experiment after experiment. *)
Definition TIC_points (wifffile : WiffFile) : list (double * double) :=
  e ← experiments_of wifffile;
  zip (getTIC e).1 (getTIC e).2.

(** The sum of the intensities reported at time [t], added up from [0.0] in
    the order of the points. *)
Definition sum_at (t : double) (points : list (double * double)) : double :=
  fold_left PrimFloat.add
    (List.filter (λ p, PrimFloat.eqb p.1 t) points).*2 0%float.

(** An experiment whose TIC vectors are parallel and short enough for the
    loop's [int] counter. *)
Definition TIC_parallel (e : Experiment) : bool :=
  let '(times, intensities) := getTIC e in
  (length times =? length intensities)%nat
  && (N.of_nat (length intensities) <? 2 ^ 31)%N.

Definition TIC_parallel_file (wifffile : WiffFile) : bool :=
  forallb TIC_parallel (experiments_of wifffile).

(** An experiment whose TIC vectors are parallel and hold no NaN time. *)
Definition TIC_regular (e : Experiment) : bool :=
  TIC_parallel e
  && forallb (λ t, negb (PrimFloat.is_nan t)) (getTIC e).1.

Definition TIC_regular_file (wifffile : WiffFile) : bool :=
  forallb TIC_regular (experiments_of wifffile).

(** The map the aggregate case builds, as a fold over the experiments of
    the whole file. *)
Definition merged_TIC (wifffile : WiffFile) : option double_map :=
  fold_left (λ acc e, add_TIC (getTIC e).1 (getTIC e).2 acc)
    (experiments_of wifffile) (Some []).

(** The aggregate record for a merged map. *)
Definition TIC_record (getBinaryData : bool) (m : double_map) : Chromatogram :=
  mkChromatogram 0%N "TIC"
    [mkCVParam MS_TIC_chromatogram None CVID_Unknown]
    (N.of_nat (length m)) [] [] [] []
    (if getBinaryData then m.*1 else []) UO_minute
    (if getBinaryData then m.*2 else []) MS_number_of_counts.

(** ** The characters of an id *)



(** ** The element count of a record *)

(** The number of different times among [times], each counted where it
    first occurs; [seen] holds the times met before, and two times are the
    same when [==] holds of them. *)
Fixpoint count_times (seen times : list double) : nat :=
  match times with
  | [] => 0
  | t :: times' =>
      if existsb (λ s, PrimFloat.eqb s t) seen then count_times seen times'
      else S (count_times (t :: seen) times')
  end.

Definition number_of_times (times : list double) : nat :=
  count_times [] times.

(** The number of points the handle holds for the record of the entry
    [ie]: for the aggregate entry the number of different times among the
    TIC points of all experiments of the file, for a transition the length
    of the time vector that [getSIC] gives for it. *)
Definition true_element_count (wifffile : WiffFile) (ie : IndexEntry) : nat :=
  match ie_chromatogramType ie with
  | MS_TIC_chromatogram => number_of_times (TIC_points wifffile).*1
  | _ =>
      length
        (getSIC
           (getExperiment wifffile
              (ie_sample ie) (ie_period ie) (ie_experiment ie))
           (size_t_of_int (ie_transition ie))).1
  end.

(** ** Loops as folds *)

Lemma for_fuel_lt {S : Type} (body : Z → S → S) (hi : Z) (fuel : nat) :
  ∀ (i : Z) (s : S), fuel = Z.to_nat (hi - i) →
    for_fuel fuel i (λ i, i <? hi) body s
    = fold_left (λ s i, body i s) (seqZ i (hi - i)) s.
Proof.
  induction fuel as [|fuel IH]; intros i s Hfuel; simpl.
  - rewrite seqZ_nil by lia. reflexivity.
  - destruct (Z.ltb_spec i hi) as [Hlt|Hge]; [|lia].
    rewrite seqZ_cons by lia. simpl.
    rewrite IH by lia. do 2 f_equal. lia.
Qed.

Lemma for_lt_fold {S : Type} (lo hi : Z) (body : Z → S → S) (s : S) :
  for_lt lo hi body s = fold_left (λ s i, body i s) (seqZ lo (hi - lo)) s.
Proof. unfold for_lt. apply for_fuel_lt. reflexivity. Qed.

Lemma for_fuel_le_lt {S : Type} (body : Z → S → S) (hi : Z) (fuel : nat) :
  ∀ (i : Z) (s : S),
    for_fuel fuel i (λ i, i <=? hi) body s
    = for_fuel fuel i (λ i, i <? hi + 1) body s.
Proof.
  induction fuel as [|fuel IH]; intros i s; simpl; [reflexivity|].
  destruct (Z.leb_spec i hi), (Z.ltb_spec i (hi + 1)); try lia; auto.
Qed.

Lemma for_le_fold {S : Type} (lo hi : Z) (body : Z → S → S) (s : S) :
  for_le lo hi body s
  = fold_left (λ s i, body i s) (seqZ lo (hi + 1 - lo)) s.
Proof.
  unfold for_le. rewrite for_fuel_le_lt. apply for_fuel_lt. reflexivity.
Qed.

Lemma fold_left_bind {A B C : Type} (f : C → B → C) (g : A → list B)
    (l : list A) (c : C) :
  fold_left f (l ≫= g) c = fold_left (λ c a, fold_left f (g a) c) l c.
Proof.
  revert c. induction l as [|a l IH]; intros c; simpl; [reflexivity|].
  rewrite fold_left_app. apply IH.
Qed.

Lemma fold_left_ext_in {A B : Type} (f g : B → A → B) (l : list A) (b : B) :
  (∀ b a, a ∈ l → f b a = g b a) → fold_left f l b = fold_left g l b.
Proof.
  revert b. induction l as [|a l IH]; intros b Hfg; simpl; [reflexivity|].
  rewrite Hfg by left. apply IH. intros; apply Hfg; by right.
Qed.

Lemma fold_left_sim {S T A : Type} (R : S → T → Prop)
    (f : S → A → S) (g : T → A → T) (l : list A) :
  (∀ a s t, R s t → R (f s a) (g t a)) →
  ∀ s t, R s t → R (fold_left f l s) (fold_left g l t).
Proof.
  intros Hstep. induction l as [|a l IH]; intros s t HR; simpl; auto.
Qed.

Lemma fold_left_ext {A B : Type} (f g : B → A → B) (l : list A) (b : B) :
  (∀ b a, f b a = g b a) → fold_left f l b = fold_left g l b.
Proof. intros Hfg. apply fold_left_ext_in. auto. Qed.

Lemma string_app_assoc (a b c : string) : (a +:+ b) +:+ c = a +:+ (b +:+ c).
Proof.
  induction a as [|x a IH]; [reflexivity|].
  change (String x ((a +:+ b) +:+ c) = String x (a +:+ (b +:+ c))).
  by rewrite IH.
Qed.

Lemma string_empty_app (s : string) : "" +:+ s = s.
Proof. reflexivity. Qed.

Lemma int_of_size_t_small (n : N) :
  (n < 2 ^ 31)%N → int_of_size_t n = Z.of_N n.
Proof.
  intros Hn. unfold int_of_size_t.
  assert (0 <= Z.of_N n < 2 ^ 31) by (change (2 ^ 31) with (Z.of_N (2 ^ 31)); lia).
  rewrite Z.mod_small; lia.
Qed.

(** ** The order of [double]

    [<] on binary64 values that are not NaN is a strict weak order; the
    facts come from the specification of the primitive comparison. *)

Lemma SFltb_irrefl (x : spec_float) : SFltb x x = false.
Proof.
  unfold SFltb. destruct x as [s|s| |s m e]; simpl; try destruct s;
    try reflexivity;
    rewrite Z.compare_refl, Pos.compare_cont_refl; reflexivity.
Qed.

Lemma SFltb_trans (x y z : spec_float) :
  SFltb x y = true → SFltb y z = true → SFltb x z = true.
Proof.
  unfold SFltb.
  destruct x as [s1|s1| |s1 m1 e1], y as [s2|s2| |s2 m2 e2],
           z as [s3|s3| |s3 m3 e3]; simpl;
    try destruct s1; try destruct s2; try destruct s3; simpl;
    try congruence;
    destruct (Z.compare_spec e1 e2), (Z.compare_spec e2 e3),
             (Z.compare_spec e1 e3); try congruence; try lia;
    subst; fold (Pos.compare m1 m2); fold (Pos.compare m2 m3);
    fold (Pos.compare m1 m3);
    destruct (Pos.compare_spec m1 m2), (Pos.compare_spec m2 m3),
             (Pos.compare_spec m1 m3); simpl; try congruence; try lia.
Qed.

Lemma SFltb_neg_trans (x y z : spec_float) :
  z ≠ S754_nan → SFltb x y = true → SFltb x z = true ∨ SFltb z y = true.
Proof.
  unfold SFltb.
  destruct x as [s1|s1| |s1 m1 e1], y as [s2|s2| |s2 m2 e2],
           z as [s3|s3| |s3 m3 e3]; simpl;
    try destruct s1; try destruct s2; try destruct s3; simpl;
    try congruence; auto;
    destruct (Z.compare_spec e1 e2), (Z.compare_spec e3 e2),
             (Z.compare_spec e1 e3); try congruence; auto; try lia;
    subst; fold (Pos.compare m1 m2); fold (Pos.compare m3 m2);
    fold (Pos.compare m1 m3);
    destruct (Pos.compare_spec m1 m2), (Pos.compare_spec m3 m2),
             (Pos.compare_spec m1 m3); simpl; try congruence; auto; try lia.
Qed.

Lemma SFeqb_ltb (x y : spec_float) :
  x ≠ S754_nan → y ≠ S754_nan →
  SFeqb x y = negb (SFltb x y) && negb (SFltb y x).
Proof.
  unfold SFeqb, SFltb.
  destruct x as [s1|s1| |s1 m1 e1], y as [s2|s2| |s2 m2 e2]; simpl;
    try destruct s1; try destruct s2; simpl; try congruence; auto;
    intros _ _;
    destruct (Z.compare_spec e1 e2), (Z.compare_spec e2 e1);
    try reflexivity; try lia;
    subst; fold (Pos.compare m1 m2); fold (Pos.compare m2 m1);
    destruct (Pos.compare_spec m1 m2), (Pos.compare_spec m2 m1); simpl;
    try reflexivity; try lia.
Qed.

Lemma is_nan_false (x : double) :
  PrimFloat.is_nan x = false → Prim2SF x ≠ S754_nan.
Proof.
  unfold PrimFloat.is_nan. rewrite FloatAxioms.eqb_spec. intros H Hnan.
  rewrite Hnan in H. discriminate.
Qed.

Lemma ltb_irrefl (x : double) : PrimFloat.ltb x x = false.
Proof. rewrite FloatAxioms.ltb_spec. apply SFltb_irrefl. Qed.

Lemma ltb_trans (x y z : double) :
  PrimFloat.ltb x y = true → PrimFloat.ltb y z = true →
  PrimFloat.ltb x z = true.
Proof. rewrite !FloatAxioms.ltb_spec. apply SFltb_trans. Qed.

Lemma ltb_neg_trans (x y z : double) :
  PrimFloat.is_nan z = false → PrimFloat.ltb x y = true →
  PrimFloat.ltb x z = true ∨ PrimFloat.ltb z y = true.
Proof.
  rewrite !FloatAxioms.ltb_spec. intros Hz%is_nan_false. by apply SFltb_neg_trans.
Qed.

Lemma key_equiv_eqb (x y : double) :
  PrimFloat.is_nan x = false → PrimFloat.is_nan y = false →
  key_equiv x y = PrimFloat.eqb x y.
Proof.
  intros Hx%is_nan_false Hy%is_nan_false. unfold key_equiv.
  rewrite FloatAxioms.eqb_spec, !FloatAxioms.ltb_spec. symmetry. by apply SFeqb_ltb.
Qed.

Lemma key_equiv_refl (x : double) : key_equiv x x = true.
Proof. unfold key_equiv. by rewrite ltb_irrefl. Qed.

Lemma key_equiv_sym (x y : double) : key_equiv x y = key_equiv y x.
Proof. unfold key_equiv. apply andb_comm. Qed.

Lemma key_equiv_ltb_l (x y z : double) :
  PrimFloat.is_nan x = false → PrimFloat.is_nan y = false →
  key_equiv x y = true → PrimFloat.ltb x z = PrimFloat.ltb y z.
Proof.
  unfold key_equiv. intros Hx Hy [Hxy Hyx]%andb_true_iff.
  apply negb_true_iff in Hxy, Hyx.
  destruct (PrimFloat.ltb x z) eqn:Hxz, (PrimFloat.ltb y z) eqn:Hyz;
    try reflexivity.
  - destruct (ltb_neg_trans x z y Hy Hxz); congruence.
  - destruct (ltb_neg_trans y z x Hx Hyz); congruence.
Qed.

Lemma key_equiv_ltb_r (x y z : double) :
  PrimFloat.is_nan x = false → PrimFloat.is_nan y = false →
  key_equiv x y = true → PrimFloat.ltb z x = PrimFloat.ltb z y.
Proof.
  unfold key_equiv. intros Hx Hy [Hxy Hyx]%andb_true_iff.
  apply negb_true_iff in Hxy, Hyx.
  destruct (PrimFloat.ltb z x) eqn:Hzx, (PrimFloat.ltb z y) eqn:Hzy;
    try reflexivity.
  - destruct (ltb_neg_trans z x y Hy Hzx); congruence.
  - destruct (ltb_neg_trans z y x Hx Hzy); congruence.
Qed.

Lemma key_equiv_trans_l (x y z : double) :
  PrimFloat.is_nan x = false → PrimFloat.is_nan y = false →
  key_equiv x y = true → key_equiv x z = key_equiv y z.
Proof.
  intros Hx Hy Hxy. unfold key_equiv.
  by rewrite (key_equiv_ltb_l x y z), (key_equiv_ltb_r x y z).
Qed.

(** ** The merged map *)

Lemma lookup_key_cons (t k v : double) (m : double_map) :
  lookup_key t ((k, v) :: m)
  = if key_equiv k t then Some v else lookup_key t m.
Proof. unfold lookup_key. simpl. by destruct (key_equiv k t). Qed.

Lemma subscript_add_keys (P : double → Prop) (k v : double) (m : double_map) :
  P k → Forall P m.*1 → Forall P (subscript_add k v m).*1.
Proof.
  intros Hk. induction m as [|[k' v'] m IH]; simpl; intros Hm.
  - by constructor.
  - inversion Hm; subst.
    destruct (PrimFloat.ltb k' k); [|destruct (PrimFloat.ltb k k')]; simpl;
      repeat constructor; auto.
Qed.

Lemma subscript_add_ascending (k v : double) (m : double_map) :
  ascending m.*1 → ascending (subscript_add k v m).*1.
Proof.
  unfold ascending. induction m as [|[k' v'] m IH]; simpl; intros Hm.
  - repeat constructor.
  - inversion Hm as [|? ? Hm' Hk']; subst.
    destruct (PrimFloat.ltb k' k) eqn:Hlt;
      [|destruct (PrimFloat.ltb k k') eqn:Hgt]; simpl.
    + constructor; [by apply IH|]. by apply subscript_add_keys.
    + constructor; [done|]. constructor; [done|].
      eapply Forall_impl; [exact Hk'|]. intros x Hx. simpl in Hx.
      by apply (ltb_trans k k' x).
    + by constructor.
Qed.

Lemma lookup_key_below (k : double) (m : double_map) :
  Forall (λ x, PrimFloat.ltb k x = true) m.*1 → lookup_key k m = None.
Proof.
  induction m as [|[k' v'] m IH]; simpl; intros Hm; [reflexivity|].
  inversion Hm as [|? ? Hk' Hm']; subst. rewrite lookup_key_cons.
  unfold key_equiv at 1. rewrite Hk'. rewrite andb_false_r. by apply IH.
Qed.

Lemma lookup_key_equiv (k t : double) (m : double_map) :
  PrimFloat.is_nan k = false → PrimFloat.is_nan t = false →
  key_equiv k t = true → lookup_key k m = lookup_key t m.
Proof.
  intros Hk Ht Hkt. induction m as [|[k' v'] m IH]; [reflexivity|].
  rewrite !lookup_key_cons, IH.
  by rewrite (key_equiv_sym k' k), (key_equiv_sym k' t),
    (key_equiv_trans_l k t k').
Qed.

Lemma lookup_subscript_add (t k v : double) (m : double_map) :
  ascending m.*1 → Forall (λ x, PrimFloat.is_nan x = false) m.*1 →
  PrimFloat.is_nan k = false → PrimFloat.is_nan t = false →
  lookup_key t (subscript_add k v m)
  = if key_equiv k t
    then Some (PrimFloat.add (default 0%float (lookup_key k m)) v)
    else lookup_key t m.
Proof.
  unfold ascending. intros Hasc Hnan Hk Ht.
  induction m as [|[k' v'] m IH]; simpl.
  - by rewrite lookup_key_cons.
  - inversion Hasc as [|? ? Hasc' Hk']; subst.
    inversion Hnan as [|? ? Hk'nan Hnan']; subst. simpl in *.
    destruct (PrimFloat.ltb k' k) eqn:Hlt;
      [|destruct (PrimFloat.ltb k k') eqn:Hgt].
    + rewrite !lookup_key_cons, IH by done.
      assert (Hk'k : key_equiv k' k = false).
      { unfold key_equiv. by rewrite Hlt. }
      rewrite Hk'k.
      destruct (key_equiv k' t) eqn:Hk't; [|reflexivity].
      rewrite (key_equiv_trans_l k' t k) in Hk'k by done.
      by rewrite (key_equiv_sym k t), Hk'k.
    + rewrite (lookup_key_cons t k).
      rewrite (lookup_key_below k ((k', v') :: m)); [reflexivity|].
      simpl. constructor; [done|].
      eapply Forall_impl; [exact Hk'|]. intros x Hx. simpl in Hx.
      by apply (ltb_trans k k' x).
    + assert (Hk'k : key_equiv k' k = true).
      { unfold key_equiv. by rewrite Hlt, Hgt. }
      rewrite !lookup_key_cons, Hk'k. simpl.
      rewrite (key_equiv_trans_l k' k t) by done.
      by destruct (key_equiv k t).
Qed.

Lemma ascending_lookup (l : list double) :
  ascending l →
  ∀ (i j : nat) (a b : double),
    l !! i = Some a → l !! j = Some b → (i < j)%nat →
    PrimFloat.ltb a b = true.
Proof.
  unfold ascending.
  induction 1 as [|x l Hl IH Hx]; intros i j a b Hi Hj Hij; [done|].
  destruct j as [|j]; [lia|]. simpl in Hj.
  destruct i as [|i]; simpl in Hi.
  - injection Hi as ->. rewrite Forall_forall in Hx. apply Hx.
    by eapply list_elem_of_lookup_2.
  - apply (IH i j); [done..|lia].
Qed.

Lemma fold_add_point_keys (P : double → Prop) (points : list (double * double)) :
  Forall P points.*1 →
  ∀ m, Forall P m.*1 → Forall P (fold_left add_point points m).*1.
Proof.
  induction points as [|[k v] points IH]; simpl; intros Hp m Hm; [done|].
  inversion Hp; subst. apply IH; [done|]. by apply subscript_add_keys.
Qed.

Lemma fold_add_point_ascending (points : list (double * double)) :
  ∀ m, ascending m.*1 → ascending (fold_left add_point points m).*1.
Proof.
  induction points as [|[k v] points IH]; simpl; intros m Hm; [done|].
  apply IH. by apply subscript_add_ascending.
Qed.

(** What the additions of [points] leave for a key equivalent to [t],
    given what the map held for it before. *)
Lemma lookup_fold_add_point (t : double) (points : list (double * double)) :
  PrimFloat.is_nan t = false →
  Forall (λ x, PrimFloat.is_nan x = false) points.*1 →
  ∀ m, ascending m.*1 → Forall (λ x, PrimFloat.is_nan x = false) m.*1 →
    lookup_key t (fold_left add_point points m)
    = fold_left
        (λ o p, if key_equiv p.1 t
                then Some (PrimFloat.add (default 0%float o) p.2) else o)
        points (lookup_key t m).
Proof.
  intros Ht. induction points as [|[k v] points IH]; simpl;
    intros Hp m Hasc Hm; [done|].
  inversion Hp; subst.
  rewrite IH; [|done|by apply subscript_add_ascending
               |by apply subscript_add_keys].
  f_equal. unfold add_point. simpl. rewrite lookup_subscript_add by done.
  destruct (key_equiv k t) eqn:Hkt; [|done].
  by rewrite (lookup_key_equiv k t).
Qed.

Lemma fold_accumulate (t : double) (points : list (double * double)) :
  ∀ o,
    fold_left
      (λ o p, if key_equiv p.1 t
              then Some (PrimFloat.add (default 0%float o) p.2) else o)
      points o
    = match List.filter (λ p, key_equiv p.1 t) points with
      | [] => o
      | hits =>
          Some (fold_left PrimFloat.add hits.*2 (default 0%float o))
      end.
Proof.
  induction points as [|[k v] points IH]; simpl; intros o; [done|].
  rewrite IH. destruct (key_equiv k t); [|done]. simpl.
  by destruct (List.filter _ points).
Qed.

Lemma filter_key_equiv_eqb (t : double) (points : list (double * double)) :
  PrimFloat.is_nan t = false →
  Forall (λ x, PrimFloat.is_nan x = false) points.*1 →
  List.filter (λ p, key_equiv p.1 t) points
  = List.filter (λ p, PrimFloat.eqb p.1 t) points.
Proof.
  intros Ht. induction points as [|[k v] points IH]; simpl; intros Hp;
    [done|].
  inversion Hp; subst. rewrite IH by done. by rewrite key_equiv_eqb.
Qed.

(** The merged map holds, for a time of some point, the sum of the
    intensities at that time. *)
Lemma lookup_merged (t : double) (points : list (double * double)) :
  Forall (λ x, PrimFloat.is_nan x = false) points.*1 →
  t ∈ points.*1 →
  lookup_key t (fold_left add_point points []) = Some (sum_at t points).
Proof.
  intros Hp Ht.
  assert (Hnan : PrimFloat.is_nan t = false).
  { rewrite Forall_forall in Hp. by apply Hp. }
  rewrite lookup_fold_add_point; [|done..|constructor|constructor].
  rewrite fold_accumulate. unfold sum_at.
  rewrite <- filter_key_equiv_eqb by done.
  destruct (List.filter _ points) as [|hit hits] eqn:Hhits; [|done].
  apply list_elem_of_fmap in Ht as ([k v] & -> & Hin). simpl in Hhits.
  assert (Hf : In (k, v) (List.filter (λ p, key_equiv p.1 k) points)).
  { apply filter_In. split; [by apply list_elem_of_In|].
    apply key_equiv_refl. }
  rewrite Hhits in Hf. destruct Hf.
Qed.

Lemma lookup_key_Some_index (t s : double) (m : double_map) :
  lookup_key t m = Some s →
  ∃ (k : nat) (t' : double),
    m.*1 !! k = Some t' ∧ key_equiv t' t = true ∧ m.*2 !! k = Some s.
Proof.
  induction m as [|[k' v'] m IH]; [done|].
  rewrite lookup_key_cons. destruct (key_equiv k' t) eqn:Hk't.
  - intros [= <-]. by exists 0%nat, k'.
  - intros (k & t' & ? & ? & ?)%IH. by exists (S k), t'.
Qed.

Lemma ascending_equiv_unique (l : list double) (t : double) :
  ascending l → Forall (λ x, PrimFloat.is_nan x = false) l →
  PrimFloat.is_nan t = false →
  ∀ (i j : nat) (a b : double),
    l !! i = Some a → l !! j = Some b →
    key_equiv a t = true → key_equiv b t = true → i = j.
Proof.
  intros Hl Hnan Ht.
  assert (Hlt : ∀ (i j : nat) (a b : double),
            l !! i = Some a → l !! j = Some b →
            key_equiv a t = true → key_equiv b t = true →
            ¬ (i < j)%nat).
  { intros i j a b Hi Hj Ha Hb Hij.
    pose proof (ascending_lookup l Hl i j a b Hi Hj Hij) as Hab.
    rewrite Forall_forall in Hnan.
    assert (PrimFloat.is_nan a = false)
      by (by eapply Hnan, list_elem_of_lookup_2).
    assert (PrimFloat.is_nan b = false)
      by (by eapply Hnan, list_elem_of_lookup_2).
    rewrite (key_equiv_ltb_l a t b), (key_equiv_ltb_r b t t) in Hab by done.
    by rewrite ltb_irrefl in Hab. }
  intros i j a b Hi Hj Ha Hb.
  destruct (Nat.lt_trichotomy i j) as [Hij|[Hij|Hij]]; [|done|].
  - by destruct (Hlt i j a b).
  - by destruct (Hlt j i b a).
Qed.

(** ** The loops of the aggregate case *)

Lemma add_TIC_regular (times intensities : list double) (m : double_map) :
  length times = length intensities →
  (N.of_nat (length intensities) < 2 ^ 31)%N →
  add_TIC times intensities (Some m)
  = Some (fold_left add_point (zip times intensities) m).
Proof.
  intros Hlen Hsmall. unfold add_TIC.
  rewrite int_of_size_t_small, for_lt_fold, Z.sub_0_r by done.
  rewrite <- (take_ge (zip times intensities) (length intensities))
    by (rewrite length_zip; lia).
  replace (Z.of_N (N.of_nat (length intensities)))
    with (Z.of_nat (length intensities)) by lia.
  assert (Hn : (length intensities ≤ length intensities)%nat) by done.
  revert Hn. generalize (length intensities) at 1 3 4. intros n.
  induction n as [|n IH]; intros Hn; [done|].
  rewrite seqZ_S, fold_left_app, IH by lia. simpl.
  rewrite Z.add_0_l, Nat2Z.id.
  destruct (lookup_lt_is_Some_2 times n) as [t Ht]; [lia|].
  destruct (lookup_lt_is_Some_2 intensities n) as [x Hx]; [lia|].
  rewrite Ht, Hx. simpl.
  rewrite (take_S_r _ _ (t, x)), fold_left_app; [done|].
  by apply lookup_zip_Some.
Qed.

Lemma fullFileTIC_merged (wifffile : WiffFile) :
  fullFileTIC wifffile = merged_TIC wifffile.
Proof.
  unfold fullFileTIC, merged_TIC, experiments_of.
  rewrite for_le_fold, fold_left_bind, Z.add_simpl_r.
  apply fold_left_ext. intros acc i.
  rewrite for_le_fold, fold_left_bind, Z.add_simpl_r.
  apply fold_left_ext. intros acc' ii.
  rewrite for_le_fold, fold_left_bind, Z.add_simpl_r.
  apply fold_left_ext. intros acc'' iii. simpl.
  by destruct (getTIC _).
Qed.

Lemma merged_fold_parallel (es : list Experiment) :
  forallb TIC_parallel es = true →
  ∀ m,
    fold_left (λ acc e, add_TIC (getTIC e).1 (getTIC e).2 acc) es (Some m)
    = Some (fold_left add_point
              (es ≫= λ e, zip (getTIC e).1 (getTIC e).2) m).
Proof.
  induction es as [|e es IH]; simpl; intros Hpar m; [done|].
  apply andb_true_iff in Hpar as [He Hes]. unfold TIC_parallel in He.
  destruct (getTIC e) as [times intensities]. simpl.
  apply andb_true_iff in He as [Hlen Hsmall].
  apply Nat.eqb_eq in Hlen. apply N.ltb_lt in Hsmall.
  rewrite add_TIC_regular by done.
  by rewrite fold_left_app, IH.
Qed.

Lemma TIC_regular_parallel (es : list Experiment) :
  forallb TIC_regular es = true → forallb TIC_parallel es = true.
Proof.
  rewrite !forallb_forall. intros Hreg e He.
  by destruct (andb_prop _ _ (Hreg e He)).
Qed.

Lemma TIC_regular_no_nan (es : list Experiment) :
  forallb TIC_regular es = true →
  Forall (λ x, PrimFloat.is_nan x = false)
    (es ≫= λ e, zip (getTIC e).1 (getTIC e).2).*1.
Proof.
  induction es as [|e es IH]; simpl; intros Hreg; [constructor|].
  apply andb_true_iff in Hreg as [He Hes].
  rewrite fmap_app. apply Forall_app. split; [|by apply IH].
  apply andb_true_iff in He as [Hpar Hnan]. unfold TIC_parallel in Hpar.
  destruct (getTIC e) as [times intensities]. simpl in *.
  apply andb_true_iff in Hpar as [Hlen%Nat.eqb_eq _].
  rewrite fst_zip by lia. apply Forall_forall. intros t Ht.
  rewrite forallb_forall in Hnan. apply negb_true_iff, Hnan.
  by apply list_elem_of_In.
Qed.

Lemma merged_TIC_parallel (wifffile : WiffFile) :
  TIC_parallel_file wifffile = true →
  merged_TIC wifffile = Some (fold_left add_point (TIC_points wifffile) []).
Proof. intros Hpar. by apply merged_fold_parallel. Qed.

Lemma merged_TIC_regular (wifffile : WiffFile) :
  TIC_regular_file wifffile = true →
  merged_TIC wifffile
  = Some (fold_left add_point (TIC_points wifffile) [])
  ∧ Forall (λ x, PrimFloat.is_nan x = false) (TIC_points wifffile).*1.
Proof.
  intros Hreg. split.
  - by apply merged_TIC_parallel, TIC_regular_parallel.
  - by apply TIC_regular_no_nan.
Qed.

Lemma push_nodes_eq (m : double_map) :
  ∀ arrays, push_nodes m arrays = (arrays.1 ++ m.*1, arrays.2 ++ m.*2).
Proof.
  unfold push_nodes.
  induction m as [|[k v] m IH]; simpl; intros [ts xs]; simpl.
  - by rewrite !app_nil_r.
  - rewrite IH. simpl. by rewrite <- !app_assoc.
Qed.

(** ** The number of nodes of the merged map *)

Lemma existsb_lookup_key (t : double) (m : double_map) :
  existsb (λ k, key_equiv k t) m.*1
  = match lookup_key t m with Some _ => true | None => false end.
Proof.
  induction m as [|[k v] m IH]; [done|].
  rewrite lookup_key_cons, fmap_cons. cbn [existsb fst]. rewrite IH.
  by destruct (key_equiv k t).
Qed.

Lemma existsb_subscript_add (t k v : double) (m : double_map) :
  ascending m.*1 → Forall (λ x, PrimFloat.is_nan x = false) m.*1 →
  PrimFloat.is_nan k = false → PrimFloat.is_nan t = false →
  existsb (λ k', key_equiv k' t) (subscript_add k v m).*1
  = key_equiv k t || existsb (λ k', key_equiv k' t) m.*1.
Proof.
  intros Hasc Hnan Hk Ht.
  rewrite !existsb_lookup_key, lookup_subscript_add by done.
  by destruct (key_equiv k t).
Qed.

(** [m[k] += v] makes a node exactly when no node has a key equivalent to
    [k]. *)
Lemma length_subscript_add_eq (k v : double) (m : double_map) :
  ascending m.*1 →
  length (subscript_add k v m)
  = if existsb (λ k', key_equiv k' k) m.*1 then length m
    else S (length m).
Proof.
  unfold ascending. induction m as [|[k' v'] m IH]; simpl; intros Hasc;
    [done|].
  inversion Hasc as [|? ? Hasc' Hk']; subst.
  destruct (PrimFloat.ltb k' k) eqn:Hlt;
    [|destruct (PrimFloat.ltb k k') eqn:Hgt]; simpl.
  - rewrite IH by done.
    assert (key_equiv k' k = false) as ->
      by (unfold key_equiv; by rewrite Hlt).
    simpl. by destruct (existsb _ _).
  - assert (key_equiv k' k = false) as ->
      by (unfold key_equiv; by rewrite Hgt, andb_false_r).
    simpl. rewrite existsb_lookup_key, lookup_key_below; [done|].
    eapply Forall_impl; [exact Hk'|]. intros x Hx. simpl in Hx.
    by apply (ltb_trans k k' x).
  - assert (key_equiv k' k = true) as ->
      by (unfold key_equiv; by rewrite Hlt, Hgt).
    done.
Qed.

Lemma existsb_eqb_equiv (k t : double) (seen : list double) :
  Forall (λ x, PrimFloat.is_nan x = false) seen →
  PrimFloat.is_nan k = false → PrimFloat.is_nan t = false →
  key_equiv k t = true →
  existsb (λ s, PrimFloat.eqb s k) seen
  = existsb (λ s, PrimFloat.eqb s t) seen.
Proof.
  intros Hseen Hk Ht Hkt.
  induction Hseen as [|s seen Hs _ IH]; [done|]. simpl. rewrite IH.
  rewrite <- !key_equiv_eqb by done.
  by rewrite !(key_equiv_sym s), (key_equiv_trans_l k t s).
Qed.

Lemma length_fold_add_point_count (points : list (double * double)) :
  Forall (λ x, PrimFloat.is_nan x = false) points.*1 →
  ∀ (seen : list double) (m : double_map),
    ascending m.*1 →
    Forall (λ x, PrimFloat.is_nan x = false) m.*1 →
    Forall (λ x, PrimFloat.is_nan x = false) seen →
    (∀ t, PrimFloat.is_nan t = false →
          existsb (λ k, key_equiv k t) m.*1
          = existsb (λ s, PrimFloat.eqb s t) seen) →
    length (fold_left add_point points m)
    = (length m + count_times seen points.*1)%nat.
Proof.
  induction points as [|[k v] points IH]; simpl;
    intros Hp seen m Hasc Hm Hseen Hsame; [lia|].
  inversion Hp as [|? ? Hk Hp']; subst.
  assert (Hasc' : ascending (subscript_add k v m).*1)
    by (by apply subscript_add_ascending).
  assert (Hm' : Forall (λ x, PrimFloat.is_nan x = false)
                  (subscript_add k v m).*1)
    by (by apply subscript_add_keys).
  unfold add_point at 2. simpl.
  pose proof (length_subscript_add_eq k v m Hasc) as Hlen.
  rewrite (Hsame k Hk) in Hlen.
  destruct (existsb (λ s, PrimFloat.eqb s k) seen) eqn:Hknown.
  - rewrite (IH Hp' seen); [by rewrite Hlen|done..|].
    intros t Ht. rewrite existsb_subscript_add, Hsame by done.
    destruct (key_equiv k t) eqn:Hkt; [|done]. simpl.
    by rewrite <- (existsb_eqb_equiv k t).
  - rewrite (IH Hp' (k :: seen));
      [rewrite Hlen; simpl; by rewrite Nat.add_succ_r
      |done|done|by constructor|].
    intros t Ht. rewrite existsb_subscript_add, Hsame by done.
    simpl. by rewrite key_equiv_eqb.
Qed.

(** The merged map has one node for each different time of the points. *)
Lemma length_merged (points : list (double * double)) :
  Forall (λ x, PrimFloat.is_nan x = false) points.*1 →
  length (fold_left add_point points []) = number_of_times points.*1.
Proof.
  intros Hp. unfold number_of_times.
  by rewrite (length_fold_add_point_count points Hp [] []);
    [|constructor..|].
Qed.

Section Properties.

Context (ostream_double lexical_cast_double : double → string).

Lemma srm_id_template q1 q3 sample period experiment transition :
  srm_id ostream_double q1 q3 sample period experiment transition
  = srm_template ostream_double q1 q3 sample period experiment transition.
Proof.
  unfold srm_id, srm_template. cbv zeta. cbv [String.concat].
  rewrite !string_app_assoc, !string_empty_app. reflexivity.
Qed.

Lemma push_back_entry_eq (fill : N → IndexEntry) (v : list IndexEntry) :
  push_back_entry fill v = v ++ [fill (N.of_nat (S (length v)))].
Proof.
  unfold push_back_entry. rewrite length_app. simpl.
  replace (Nat.pred (length v + 1)) with (length v + 0)%nat by lia.
  rewrite insert_app_r. simpl. do 3 f_equal. lia.
Qed.

Lemma fold_push_SRM wifffile sample (cs : list (Z * Z * Z)) :
  ∀ v, fold_left (push_SRM ostream_double wifffile sample) cs v
       = v ++ imap (λ k c, SRM_entry ostream_double wifffile sample
                             (N.of_nat (length v + k)) c) cs.
Proof.
  induction cs as [|c cs IH]; intros v; simpl.
  - by rewrite app_nil_r.
  - rewrite IH. unfold push_SRM at 1. rewrite <- app_assoc. simpl.
    rewrite Nat.add_0_r. do 2 f_equal.
    apply imap_ext. intros k x _. simpl. unfold push_SRM.
    rewrite length_app. simpl. do 2 f_equal. lia.
Qed.

Lemma createIndex_eq (self : t) :
  createIndex ostream_double self
  = let v :=
      fold_left (push_SRM ostream_double (wifffile_ self) (sample self))
        (transitions_of (wifffile_ self) (sample self))
        (index_ self ++ [TIC_entry (N.of_nat (length (index_ self)))]) in
    set_size_ (N.of_nat (length v)) (set_index_ v self).
Proof.
  unfold createIndex.
  set (v0 := push_back_entry _ (index_ self)).
  assert (Hv0 : v0 = index_ self ++ [TIC_entry (N.of_nat (length (index_ self)))]).
  { unfold v0. rewrite push_back_entry_eq. unfold TIC_entry.
    do 3 f_equal. lia. }
  set (R := λ (s : t) (v : list IndexEntry), s = set_index_ v self).
  match goal with
  | |- set_size_ _ ?s = _ =>
      assert (HR : R s (fold_left (push_SRM ostream_double (wifffile_ self) (sample self))
                          (transitions_of (wifffile_ self) (sample self)) v0))
  end.
  { unfold transitions_of. rewrite fold_left_bind, for_le_fold.
    replace (getPeriodCount (wifffile_ (set_index_ v0 self)) (sample (set_index_ v0 self)) + 1 - 1)
      with (getPeriodCount (wifffile_ self) (sample self)) by (simpl; lia).
    apply fold_left_sim; [|reflexivity].
    intros ii s v Hs. rewrite fold_left_bind, for_le_fold.
    replace (getExperimentCount (wifffile_ s) (sample s) ii + 1 - 1)
      with (getExperimentCount (wifffile_ self) (sample self) ii)
      by (rewrite Hs; simpl; lia).
    apply fold_left_sim; [|exact Hs].
    clear s v Hs. intros iii s v Hs. rewrite fold_left_bind, for_lt_fold.
    unfold R in Hs. subst s. simpl. rewrite Z.sub_0_r.
    apply fold_left_sim; [|reflexivity].
    intros iiii s v' Hs. unfold R in *. subst s. simpl.
    rewrite push_back_entry_eq. unfold set_index_. simpl.
    f_equal. unfold push_SRM, SRM_entry. rewrite srm_id_template.
    do 3 f_equal. lia. }
  unfold R in HR. rewrite HR. simpl. rewrite Hv0. reflexivity.
Qed.

(** ** The states of a catalog *)

Lemma createIndex_new wifffile sample :
  createIndex ostream_double (new wifffile sample)
  = set_indexInitialized_ false (indexed ostream_double wifffile sample).
Proof.
  rewrite createIndex_eq. simpl. rewrite fold_push_SRM. reflexivity.
Qed.

Lemma call_once_new wifffile sample :
  call_once ostream_double (new wifffile sample)
  = indexed ostream_double wifffile sample.
Proof.
  unfold call_once. simpl. rewrite createIndex_new. reflexivity.
Qed.

Lemma reachable_inv self :
  reachable ostream_double self →
  ∃ wifffile sample,
    self = new wifffile sample ∨ self = indexed ostream_double wifffile sample.
Proof.
  induction 1 as [w s|self _ (w & s & [-> | ->])]; exists w, s.
  - by left.
  - right. apply call_once_new.
  - by right.
Qed.

Lemma call_once_reachable self :
  reachable ostream_double self →
  call_once ostream_double self
  = indexed ostream_double (wifffile_ self) (sample self).
Proof.
  intros (w & s & [-> | ->])%reachable_inv.
  - apply call_once_new.
  - reflexivity.
Qed.

(** Every public call leaves the object as [call_once] does. *)
Lemma public_call_state self (p : N) (id : string) (getBinaryData : bool) :
  (size ostream_double self).2 = call_once ostream_double self
  ∧ (chromatogramIdentity ostream_double p self).2
    = call_once ostream_double self
  ∧ (find ostream_double id self).2 = call_once ostream_double self
  ∧ (chromatogram ostream_double lexical_cast_double p getBinaryData self).2
    = call_once ostream_double self.
Proof.
  unfold size, chromatogramIdentity, find, chromatogram. cbv zeta.
  repeat split; try reflexivity;
    by destruct (size_ (call_once ostream_double self) <? p)%N.
Qed.

(** One caller after another: the index is built by the first call and
    left alone by the later ones. *)
Lemma call_once_again self :
  reachable ostream_double self →
  call_once ostream_double (call_once ostream_double self)
  = call_once ostream_double self.
Proof.
  intros Hself. rewrite (call_once_reachable self) by done. reflexivity.
Qed.

(** ** Reading the index *)

Lemma length_index_of wifffile sample :
  length (index_of ostream_double wifffile sample)
  = S (length (transitions_of wifffile sample)).
Proof. unfold index_of. simpl. by rewrite length_imap. Qed.

Lemma index_of_lookup wifffile sample (p : nat) (ie : IndexEntry) :
  index_of ostream_double wifffile sample !! p = Some ie →
  ie_index ie = N.of_nat p.
Proof.
  unfold index_of. destruct p as [|k]; simpl.
  - intros [= <-]. reflexivity.
  - rewrite list_lookup_imap.
    destruct (transitions_of wifffile sample !! k) as [[[ii iii] iiii]|];
      simpl; intros [= <-]. reflexivity.
Qed.

Lemma index_of_lookup_lt wifffile sample (p : N) :
  (p < N.of_nat (length (index_of ostream_double wifffile sample)))%N →
  ∃ ie, index_of ostream_double wifffile sample !! N.to_nat p = Some ie.
Proof.
  intros Hp. apply lookup_lt_is_Some_2. lia.
Qed.

Lemma index_of_lookup_size wifffile sample :
  index_of ostream_double wifffile sample
    !! N.to_nat (N.of_nat (length (index_of ostream_double wifffile sample)))
  = None.
Proof. apply lookup_ge_None_2. lia. Qed.

(** [find] never finds: the map it consults is empty. *)
Lemma find_reachable self id :
  reachable ostream_double self →
  (find ostream_double id self).1
  = N.of_nat (length (index_of ostream_double (wifffile_ self) (sample self))).
Proof.
  intros Hself. unfold find. rewrite call_once_reachable by done. simpl.
  rewrite lookup_empty. reflexivity.
Qed.

Lemma size_reachable self :
  reachable ostream_double self →
  (size ostream_double self).1
  = N.of_nat (length (index_of ostream_double (wifffile_ self) (sample self))).
Proof.
  intros Hself. unfold size. by rewrite call_once_reachable.
Qed.

Lemma chromatogramIdentity_reachable self (p : N) :
  reachable ostream_double self →
  (chromatogramIdentity ostream_double p self).1
  = if (N.of_nat (length (index_of ostream_double (wifffile_ self)
                            (sample self))) <? p)%N
    then Throws ("[ChromatogramList_ABI::chromatogramIdentity()] Bad index: "
                 +:+ pretty p)
    else match index_of ostream_double (wifffile_ self) (sample self)
                 !! N.to_nat p with
         | Some ie => Returns ie
         | None => Undefined
         end.
Proof.
  intros Hself. unfold chromatogramIdentity.
  rewrite call_once_reachable by done. simpl.
  by destruct (_ <? p)%N.
Qed.

Lemma chromatogram_reachable self (p : N) (getBinaryData : bool) :
  reachable ostream_double self →
  (chromatogram ostream_double lexical_cast_double p getBinaryData self).1
  = if (N.of_nat (length (index_of ostream_double (wifffile_ self)
                            (sample self))) <? p)%N
    then Throws ("[ChromatogramList_ABI::chromatogram()] Bad index: "
                 +:+ pretty p)
    else match index_of ostream_double (wifffile_ self) (sample self)
                 !! N.to_nat p with
         | Some ie =>
             chromatogram_body lexical_cast_double (wifffile_ self) p ie
               getBinaryData
         | None => Undefined
         end.
Proof.
  intros Hself. unfold chromatogram.
  rewrite call_once_reachable by done. cbv zeta.
  cbn [indexed size_ index_ wifffile_].
  by destruct (_ <? p)%N.
Qed.

(** ** Positions past the end *)

(** X1: a position above [size()] is rejected by both operations with a
    [runtime_error] whose message ends in the position. *)
Lemma bad_index_above_size self (p : N) (getBinaryData : bool) :
  reachable ostream_double self →
  ((size ostream_double self).1 < p)%N →
  (chromatogramIdentity ostream_double p self).1
  = Throws ("[ChromatogramList_ABI::chromatogramIdentity()] Bad index: "
            +:+ pretty p)
  ∧ (chromatogram ostream_double lexical_cast_double p getBinaryData self).1
    = Throws ("[ChromatogramList_ABI::chromatogram()] Bad index: "
              +:+ pretty p).
Proof.
  intros Hself. rewrite size_reachable by done. intros Hp. split.
  - rewrite chromatogramIdentity_reachable by done.
    destruct (N.ltb_spec0 (N.of_nat (length (index_of ostream_double
      (wifffile_ self) (sample self)))) p); [reflexivity|lia].
  - rewrite chromatogram_reachable by done.
    destruct (N.ltb_spec0 (N.of_nat (length (index_of ostream_double
      (wifffile_ self) (sample self)))) p); [reflexivity|lia].
Qed.

(** C1, at the position the check lets through. The test is
    [index > size_], so the position [size()] itself, the first one outside
    [[0, size())], is not rejected: neither operation throws, and each goes
    on to read [index_[size_]], one element past the end of the vector. *)
Theorem bad_index_at_size_not_rejected self (getBinaryData : bool) :
  reachable ostream_double self →
  let p := (size ostream_double self).1 in
  (chromatogramIdentity ostream_double p self).1 = Undefined
  ∧ (chromatogram ostream_double lexical_cast_double p getBinaryData self).1
    = Undefined.
Proof.
  intros Hself. rewrite size_reachable by done. cbv zeta. split.
  - rewrite chromatogramIdentity_reachable by done.
    by rewrite N.ltb_irrefl, index_of_lookup_size.
  - rewrite chromatogram_reachable by done.
    by rewrite N.ltb_irrefl, index_of_lookup_size.
Qed.

(** ** Identity and lookup by id *)

Lemma chromatogramIdentity_valid self (p : N) :
  reachable ostream_double self →
  (p < (size ostream_double self).1)%N →
  ∃ ie, (chromatogramIdentity ostream_double p self).1 = Returns ie
        ∧ index_of ostream_double (wifffile_ self) (sample self)
            !! N.to_nat p = Some ie.
Proof.
  intros Hself. rewrite size_reachable by done. intros Hp.
  rewrite chromatogramIdentity_reachable by done.
  destruct (N.ltb_spec0 (N.of_nat (length (index_of ostream_double
              (wifffile_ self) (sample self)))) p) as [|_]; [lia|].
  destruct (index_of_lookup_lt _ _ _ Hp) as [ie Hie].
  rewrite Hie. by exists ie.
Qed.

(** C6: for every valid position [p] in [[0, size())],
    [chromatogramIdentity(p)] returns an entry whose [index] is [p]. *)
Theorem identity_position self (p : N) :
  reachable ostream_double self →
  (p < (size ostream_double self).1)%N →
  ∃ ie, (chromatogramIdentity ostream_double p self).1 = Returns ie
        ∧ ie_index ie = p.
Proof.
  intros Hself Hp.
  destruct (chromatogramIdentity_valid self p Hself Hp) as (ie & Hret & Hie).
  exists ie. split; [done|].
  rewrite (index_of_lookup _ _ _ _ Hie). lia.
Qed.

(** C3: once the index is built the id-to-position map is empty, since
    [createIndex] never inserts into it; so [find] returns [size()] for
    every id, for ["TIC"] and for the id of every entry of the index. *)
Theorem find_always_size self :
  reachable ostream_double self →
  idToIndexMap_ (call_once ostream_double self) = ∅
  ∧ (∀ id, (find ostream_double id self).1 = (size ostream_double self).1)
  ∧ (find ostream_double "TIC" self).1 = (size ostream_double self).1
  ∧ (∀ ie, ie ∈ index_ (call_once ostream_double self) →
           (find ostream_double (ie_id ie) self).1
           = (size ostream_double self).1).
Proof.
  intros Hself. rewrite size_reachable by done.
  repeat split; intros; try by apply find_reachable.
  by rewrite call_once_reachable.
Qed.

(** C2, as the code has it: the id of the entry at a valid position [p] is
    not looked up to [p]; [find] gives [size()] for it, which is above
    every valid position. *)
Theorem find_identity_id_not_position self (p : N) :
  reachable ostream_double self →
  (p < (size ostream_double self).1)%N →
  ∃ ie, (chromatogramIdentity ostream_double p self).1 = Returns ie
        ∧ (find ostream_double (ie_id ie) self).1
          = (size ostream_double self).1
        ∧ (find ostream_double (ie_id ie) self).1 ≠ p.
Proof.
  intros Hself Hp.
  destruct (chromatogramIdentity_valid self p Hself Hp) as (ie & Hie & _).
  exists ie. split; [done|].
  rewrite find_reachable, size_reachable in * by done. split; [done|lia].
Qed.

(** C9: for an id that no entry of the index carries, [find] returns
    exactly [size()]; it returns a position and has no failing path. *)
Theorem find_unassigned_id_size self (id : string) :
  reachable ostream_double self →
  (∀ ie, ie ∈ index_ (size ostream_double self).2 → ie_id ie ≠ id) →
  (find ostream_double id self).1 = (size ostream_double self).1.
Proof.
  intros Hself _. by rewrite find_reachable, size_reachable.
Qed.

(** ** Index construction *)

(** C5: [createIndex] on a new catalog leaves the aggregate entry with id
    ["TIC"] at position 0, followed by one entry per transition of the
    bound sample in period, experiment, transition order, each with the
    id of the fixed template; [size_] is the number of entries. When the
    sample has no period the index is the ["TIC"] entry alone and [size()]
    is 1. *)
Theorem createIndex_TIC_then_transitions (wifffile : WiffFile) (sample : Z) :
  let self := createIndex ostream_double (new wifffile sample) in
  index_ self
  = TIC_entry 0
    :: imap (λ k c, SRM_entry ostream_double wifffile sample (N.of_nat (S k)) c)
         (transitions_of wifffile sample)
  ∧ ie_id (TIC_entry 0) = "TIC"
  ∧ (∀ pos ii iii iiii,
       ie_id (SRM_entry ostream_double wifffile sample pos (ii, iii, iiii))
       = String.concat ""
           ["SRM SIC Q1="; ostream_double (Q1 (getSRM (getExperiment wifffile sample ii iii) (size_t_of_int iiii)));
            " Q3="; ostream_double (Q3 (getSRM (getExperiment wifffile sample ii iii) (size_t_of_int iiii)));
            " sample="; pretty sample;
            " period="; pretty ii;
            " experiment="; pretty iii;
            " transition="; pretty iiii])
  ∧ size_ self = N.of_nat (S (length (transitions_of wifffile sample)))
  ∧ (getPeriodCount wifffile sample ≤ 0 →
     index_ self = [TIC_entry 0]
     ∧ (size ostream_double (new wifffile sample)).1 = 1%N).
Proof.
  cbv zeta. rewrite createIndex_new.
  cbn [set_indexInitialized_ indexed index_ size_].
  split; [reflexivity|]. split; [reflexivity|].
  split; [intros; reflexivity|].
  split; [by rewrite length_index_of|].
  intros Hperiods.
  assert (Hnone : transitions_of wifffile sample = []).
  { unfold transitions_of. by rewrite seqZ_nil. }
  split.
  - unfold index_of. by rewrite Hnone.
  - unfold size. rewrite call_once_new. cbn [indexed size_ fst].
    by rewrite length_index_of, Hnone.
Qed.

(** ** Materialisation *)

Lemma chromatogram_TIC self (getBinaryData : bool) :
  reachable ostream_double self →
  (chromatogram ostream_double lexical_cast_double 0 getBinaryData self).1
  = match merged_TIC (wifffile_ self) with
    | Some m => Returns (TIC_record getBinaryData m)
    | None => Undefined
    end.
Proof.
  intros Hself. rewrite chromatogram_reachable by done.
  rewrite length_index_of.
  change (index_of ostream_double (wifffile_ self) (sample self)
            !! N.to_nat 0) with (Some (TIC_entry 0)).
  destruct (N.ltb_spec0 (N.of_nat (S (length (transitions_of
              (wifffile_ self) (sample self))))) 0) as [|_]; [lia|].
  unfold chromatogram_body. cbn [TIC_entry ie_chromatogramType ie_id].
  rewrite fullFileTIC_merged.
  destruct (merged_TIC (wifffile_ self)) as [m|]; [|done].
  destruct getBinaryData; [|done].
  cbv zeta. rewrite push_nodes_eq. reflexivity.
Qed.

Lemma chromatogram_SRM self (k : nat) (c : Z * Z * Z) (getBinaryData : bool) :
  reachable ostream_double self →
  transitions_of (wifffile_ self) (sample self) !! k = Some c →
  ∃ r,
    (chromatogram ostream_double lexical_cast_double (N.of_nat (S k))
       getBinaryData self).1 = Returns r
    ∧ c_timeArray r
      = (if getBinaryData
         then (getSIC (getExperiment (wifffile_ self) (sample self)
                         c.1.1 c.1.2) (size_t_of_int c.2)).1
         else [])
    ∧ c_intensityArray r
      = (if getBinaryData
         then (getSIC (getExperiment (wifffile_ self) (sample self)
                         c.1.1 c.1.2) (size_t_of_int c.2)).2
         else [])
    ∧ c_defaultArrayLength r
      = N.of_nat (length (getSIC (getExperiment (wifffile_ self)
                                    (sample self) c.1.1 c.1.2)
                            (size_t_of_int c.2)).1).
Proof.
  intros Hself Hc. rewrite chromatogram_reachable by done.
  assert (Hk : (k < length (transitions_of (wifffile_ self) (sample self)))%nat)
    by (by eapply lookup_lt_Some).
  rewrite length_index_of.
  destruct (N.ltb_spec0 (N.of_nat (S (length (transitions_of
              (wifffile_ self) (sample self))))) (N.of_nat (S k)))
    as [|_]; [lia|].
  rewrite Nat2N.id. unfold index_of.
  rewrite lookup_cons_ne_0, list_lookup_imap by done. simpl.
  rewrite Hc. destruct c as [[ii iii] iiii]. simpl.
  unfold chromatogram_body. simpl.
  destruct (getSIC _ _) as [times intensities]. simpl.
  destruct getBinaryData; eexists; repeat split.
Qed.

(** C7: with [getBinaryData] false, at a valid position of either kind,
    the record has empty time and intensity arrays, and its
    [defaultArrayLength] is the number of points the handle holds for the
    record: for the aggregate record the number of different times among
    the TIC points of the file, for a transition the length of its
    [getSIC] time vector. The record that the same call returns with
    [getBinaryData] true has a time array of that length and the same
    [defaultArrayLength]. For the aggregate record, at position 0, the
    TIC vectors of the file are taken parallel and free of NaN, as the
    loop and the map read them. *)
Theorem default_length_without_binary_data self (p : N) :
  reachable ostream_double self →
  (p < (size ostream_double self).1)%N →
  (p = 0%N → TIC_regular_file (wifffile_ self) = true) →
  ∃ ie r0 r1,
    (chromatogramIdentity ostream_double p self).1 = Returns ie
    ∧ (chromatogram ostream_double lexical_cast_double p false self).1
      = Returns r0
    ∧ (chromatogram ostream_double lexical_cast_double p true self).1
      = Returns r1
    ∧ c_timeArray r0 = [] ∧ c_intensityArray r0 = []
    ∧ c_defaultArrayLength r0
      = N.of_nat (true_element_count (wifffile_ self) ie)
    ∧ length (c_timeArray r1) = true_element_count (wifffile_ self) ie
    ∧ c_defaultArrayLength r0 = N.of_nat (length (c_timeArray r1))
    ∧ c_defaultArrayLength r1 = c_defaultArrayLength r0.
Proof.
  intros Hself Hp Hreg.
  destruct (chromatogramIdentity_valid self p Hself Hp) as (ie & Hid & Hie).
  exists ie. rewrite Hid. clear Hid.
  rewrite size_reachable, length_index_of in Hp by done.
  unfold index_of in Hie. destruct (N.to_nat p) as [|k] eqn:Hk;
    simpl in Hie.
  - assert (p = 0%N) as -> by lia. injection Hie as <-.
    rewrite !chromatogram_TIC by done.
    destruct (merged_TIC_regular _ (Hreg eq_refl)) as [-> Hnan].
    do 2 eexists. split; [done|]. split; [reflexivity|].
    split; [reflexivity|]. simpl. rewrite length_fmap.
    unfold true_element_count. simpl. by rewrite length_merged.
  - replace p with (N.of_nat (S k)) by lia.
    rewrite list_lookup_imap in Hie.
    destruct (transitions_of _ _ !! k) as [[[ii iii] iiii]|] eqn:Hc;
      [|done].
    injection Hie as <-.
    destruct (chromatogram_SRM self k _ false Hself Hc)
      as (r0 & -> & Ht0 & Hi0 & Hd0).
    destruct (chromatogram_SRM self k _ true Hself Hc)
      as (r1 & -> & Ht1 & Hi1 & Hd1).
    exists r0, r1. simpl in *. unfold true_element_count. simpl.
    repeat split; try done.
    + by rewrite Ht1.
    + by rewrite Hd0, Ht1.
    + by rewrite Hd0, Hd1.
Qed.

(** C4: on a file whose TIC vectors are parallel and hold no NaN, the
    aggregate record with its data has the times in strictly ascending
    order, one intensity per time, every time of the output is a time of
    some experiment, and every time [t] of some experiment is found at
    exactly one place of the output, with the sum of the intensities that
    the experiments of the file report at [t]. *)
Theorem TIC_sums_intensities_by_time self :
  reachable ostream_double self →
  TIC_regular_file (wifffile_ self) = true →
  ∃ r,
    (chromatogram ostream_double lexical_cast_double 0 true self).1
    = Returns r
    ∧ ascending (c_timeArray r)
    ∧ length (c_intensityArray r) = length (c_timeArray r)
    ∧ (∀ t', t' ∈ c_timeArray r → t' ∈ (TIC_points (wifffile_ self)).*1)
    ∧ (∀ t, t ∈ (TIC_points (wifffile_ self)).*1 →
         ∃ (k : nat) (t' : double),
           c_timeArray r !! k = Some t'
           ∧ PrimFloat.eqb t' t = true
           ∧ c_intensityArray r !! k
             = Some (sum_at t (TIC_points (wifffile_ self)))
           ∧ (∀ (j : nat) (t'' : double),
                c_timeArray r !! j = Some t'' →
                PrimFloat.eqb t'' t = true → j = k)).
Proof.
  intros Hself Hreg. rewrite chromatogram_TIC by done.
  destruct (merged_TIC_regular _ Hreg) as [-> Hnan].
  set (points := TIC_points (wifffile_ self)) in *.
  set (m := fold_left add_point points []).
  assert (Hasc : ascending m.*1).
  { apply fold_add_point_ascending. constructor. }
  assert (Hkeys : Forall (λ x, PrimFloat.is_nan x = false) m.*1).
  { apply fold_add_point_keys; [done|constructor]. }
  exists (TIC_record true m). simpl. repeat split; [done|..].
  - by rewrite !length_fmap.
  - apply Forall_forall. apply fold_add_point_keys; [|constructor].
    by apply Forall_forall.
  - intros t Ht.
    assert (Htn : PrimFloat.is_nan t = false).
    { rewrite Forall_forall in Hnan. by apply Hnan. }
    destruct (lookup_key_Some_index t _ m (lookup_merged t points Hnan Ht))
      as (k & t' & Hk & Hequiv & Hval).
    assert (Ht'n : PrimFloat.is_nan t' = false).
    { rewrite Forall_forall in Hkeys. by eapply Hkeys, list_elem_of_lookup_2. }
    exists k, t'. repeat split; [done| |done|].
    + by rewrite <- key_equiv_eqb.
    + intros j t'' Hj Heq.
      assert (PrimFloat.is_nan t'' = false).
      { rewrite Forall_forall in Hkeys.
        by eapply Hkeys, list_elem_of_lookup_2. }
      apply (ascending_equiv_unique m.*1 t Hasc Hkeys Htn j k t'' t');
        [done..| |done].
      by rewrite key_equiv_eqb.
Qed.

(** C8: the aggregate record is built from the experiments of every
    sample of the file, whatever sample the catalog is bound to, while the
    index holds the transitions of the bound sample only. *)
Theorem TIC_spans_file_index_spans_sample self (getBinaryData : bool) :
  reachable ostream_double self →
  (chromatogram ostream_double lexical_cast_double 0 getBinaryData self).1
  = match
      fold_left (λ acc e, add_TIC (getTIC e).1 (getTIC e).2 acc)
        (i ← seqZ 1 (getSampleCount (wifffile_ self));
         ii ← seqZ 1 (getPeriodCount (wifffile_ self) i);
         iii ← seqZ 1 (getExperimentCount (wifffile_ self) i ii);
         [getExperiment (wifffile_ self) i ii iii])
        (Some [])
    with
    | Some m => Returns (TIC_record getBinaryData m)
    | None => Undefined
    end
  ∧ (∀ sample',
       (chromatogram ostream_double lexical_cast_double 0 getBinaryData
          (new (wifffile_ self) sample')).1
       = (chromatogram ostream_double lexical_cast_double 0 getBinaryData
            self).1)
  ∧ index_ (call_once ostream_double self)
    = TIC_entry 0
      :: imap (λ k c, SRM_entry ostream_double (wifffile_ self)
                        (sample self) (N.of_nat (S k)) c)
           (ii ← seqZ 1 (getPeriodCount (wifffile_ self) (sample self));
            iii ← seqZ 1 (getExperimentCount (wifffile_ self)
                            (sample self) ii);
            iiii ← seqZ 0
              (int_of_size_t
                 (getSRMSize (getExperiment (wifffile_ self)
                                (sample self) ii iii)));
            [(ii, iii, iiii)])
  ∧ (∀ (k : nat) ie,
       index_ (call_once ostream_double self) !! S k = Some ie →
       ie_sample ie = sample self).
Proof.
  intros Hself. split; [by apply chromatogram_TIC|].
  split.
  { intros sample'. rewrite !chromatogram_TIC; [done|done|constructor]. }
  rewrite call_once_reachable by done. split; [reflexivity|].
  intros k ie. cbn [indexed index_]. unfold index_of.
  rewrite lookup_cons_ne_0, list_lookup_imap by done. simpl.
  destruct (transitions_of _ _ !! k) as [[[ii iii] iiii]|]; simpl;
    intros [= <-]. reflexivity.
Qed.

End Properties.

(** ** Ids and coordinates of the index *)













Lemma transitions_of_elem (wifffile : WiffFile) (sample ii iii iiii : Z) :
  (ii, iii, iiii) ∈ transitions_of wifffile sample
  ↔ 1 ≤ ii ≤ getPeriodCount wifffile sample
    ∧ 1 ≤ iii ≤ getExperimentCount wifffile sample ii
    ∧ 0 ≤ iiii
      < int_of_size_t (getSRMSize (getExperiment wifffile sample ii iii)).
Proof.
  unfold transitions_of. rewrite list_elem_of_bind. split.
  - intros (ii' & (iii' & (iiii' & Hc & H3)%list_elem_of_bind
                   & H2)%list_elem_of_bind & H1).
    apply list_elem_of_singleton in Hc as [= -> -> ->].
    apply elem_of_seqZ in H1, H2, H3. lia.
  - intros (H1 & H2 & H3). exists ii. split; [|apply elem_of_seqZ; lia].
    apply list_elem_of_bind. exists iii. split; [|apply elem_of_seqZ; lia].
    apply list_elem_of_bind. exists iiii.
    split; [by apply list_elem_of_singleton|apply elem_of_seqZ; lia].
Qed.


(** ** The aggregate loops on vectors of any length *)

Lemma fold_bind_None {A B : Type} (f : Z → A → option A) (l : list Z) :
  fold_left (λ (acc : option A) i, acc ≫= f i) l None = None.
Proof. induction l as [|i l IH]; simpl; [done|apply IH]. Qed.

Lemma add_TIC_None (times intensities : list double) :
  add_TIC times intensities None = None.
Proof.
  unfold add_TIC. rewrite for_lt_fold.
  apply (fold_bind_None (B:=unit)
           (λ iiii m, t ← times !! Z.to_nat iiii;
                      x ← intensities !! Z.to_nat iiii;
                      Some (subscript_add t x m))).
Qed.

Lemma add_TIC_in_bounds (times intensities : list double) (m : double_map) :
  (length intensities ≤ length times)%nat →
  (N.of_nat (length intensities) < 2 ^ 31)%N →
  add_TIC times intensities (Some m)
  = Some (fold_left add_point (zip times intensities) m).
Proof.
  intros Hlen Hsmall. unfold add_TIC.
  rewrite int_of_size_t_small, for_lt_fold, Z.sub_0_r by done.
  rewrite <- (take_ge (zip times intensities) (length intensities))
    by (rewrite length_zip; lia).
  replace (Z.of_N (N.of_nat (length intensities)))
    with (Z.of_nat (length intensities)) by lia.
  assert (Hn : (length intensities ≤ length intensities)%nat) by done.
  revert Hn. generalize (length intensities) at 1 3 4. intros n.
  induction n as [|n IH]; intros Hn; [done|].
  rewrite seqZ_S, fold_left_app, IH by lia. simpl.
  rewrite Z.add_0_l, Nat2Z.id.
  destruct (lookup_lt_is_Some_2 times n) as [t Ht]; [lia|].
  destruct (lookup_lt_is_Some_2 intensities n) as [x Hx]; [lia|].
  rewrite Ht, Hx. simpl.
  rewrite (take_S_r _ _ (t, x)), fold_left_app; [done|].
  by apply lookup_zip_Some.
Qed.

Lemma add_TIC_short (times intensities : list double)
    (acc : option double_map) :
  (length times < length intensities)%nat →
  (N.of_nat (length intensities) < 2 ^ 31)%N →
  add_TIC times intensities acc = None.
Proof.
  intros Hlen Hsmall. unfold add_TIC.
  rewrite int_of_size_t_small, for_lt_fold, Z.sub_0_r by done.
  replace (Z.of_N (N.of_nat (length intensities)))
    with (Z.of_nat (length times)
          + (1 + Z.of_nat (length intensities - S (length times)))) by lia.
  rewrite seqZ_app, fold_left_app by lia.
  rewrite (seqZ_app _ 1), fold_left_app by lia.
  set (reached := fold_left _ (seqZ 0 (Z.of_nat (length times))) acc).
  assert (Hstep : fold_left
            (λ (acc : option double_map) (iiii : Z),
               m ← acc;
               t ← times !! Z.to_nat iiii;
               x ← intensities !! Z.to_nat iiii;
               Some (subscript_add t x m))
            (seqZ (0 + Z.of_nat (length times)) 1) reached = None).
  { rewrite seqZ_cons, seqZ_nil by lia. simpl.
    destruct reached as [m|]; [|done]. simpl.
    rewrite Z.add_0_l, Nat2Z.id. by rewrite (lookup_ge_None_2 times). }
  rewrite Hstep.
  apply (fold_bind_None (B:=unit)
           (λ iiii m, t ← times !! Z.to_nat iiii;
                      x ← intensities !! Z.to_nat iiii;
                      Some (subscript_add t x m))).
Qed.

Lemma merged_fold_None (es : list Experiment) :
  fold_left (λ acc e, add_TIC (getTIC e).1 (getTIC e).2 acc) es None = None.
Proof.
  induction es as [|e es IH]; simpl; [done|]. by rewrite add_TIC_None.
Qed.

Lemma merged_fold_short (es : list Experiment) (e : Experiment) :
  e ∈ es →
  (length (getTIC e).1 < length (getTIC e).2)%nat →
  (N.of_nat (length (getTIC e).2) < 2 ^ 31)%N →
  ∀ acc,
    fold_left (λ acc e, add_TIC (getTIC e).1 (getTIC e).2 acc) es acc = None.
Proof.
  intros He Hlen Hsmall.
  induction es as [|e' es IH]; intros acc; [by apply elem_of_nil in He|].
  simpl. apply elem_of_cons in He as [<-|He].
  - rewrite add_TIC_short by done. apply merged_fold_None.
  - by apply IH.
Qed.

Lemma merged_fold_in_bounds (es : list Experiment) :
  (∀ e, e ∈ es →
        (length (getTIC e).2 ≤ length (getTIC e).1)%nat
        ∧ (N.of_nat (length (getTIC e).2) < 2 ^ 31)%N) →
  ∀ m,
    fold_left (λ acc e, add_TIC (getTIC e).1 (getTIC e).2 acc) es (Some m)
    = Some (fold_left add_point
              (es ≫= λ e, zip (getTIC e).1 (getTIC e).2) m).
Proof.
  induction es as [|e es IH]; simpl; intros Hes m; [done|].
  destruct (Hes e) as [Hlen Hsmall]; [by left|].
  rewrite add_TIC_in_bounds by done.
  rewrite fold_left_app, IH; [done|]. intros e' He'. apply Hes. by right.
Qed.

Lemma length_subscript_add (k v : double) (m : double_map) :
  (length (subscript_add k v m) ≤ S (length m))%nat.
Proof.
  induction m as [|[k' v'] m IH]; simpl; [done|].
  destruct (PrimFloat.ltb k' k); [|destruct (PrimFloat.ltb k k')]; simpl; lia.
Qed.

Lemma length_fold_add_point (points : list (double * double)) :
  ∀ m, (length (fold_left add_point points m)
        ≤ length m + length points)%nat.
Proof.
  induction points as [|[k v] points IH]; simpl; intros m; [lia|].
  etrans; [apply IH|]. unfold add_point. simpl.
  pose proof (length_subscript_add k v m). lia.
Qed.

(** A key that the map does not hold yet gets a node of its own. *)
Lemma subscript_add_fresh (k v : double) (m : double_map) :
  Forall (λ k', key_equiv k' k = false) m.*1 →
  subscript_add k v m ≡ₚ (k, PrimFloat.add 0 v) :: m.
Proof.
  induction m as [|[k' v'] m IH]; simpl; intros Hm; [done|].
  inversion Hm as [|? ? Hk' Hm']; subst.
  destruct (PrimFloat.ltb k' k) eqn:Hlt;
    [|destruct (PrimFloat.ltb k k') eqn:Hgt].
  - rewrite IH by done. apply Permutation_swap.
  - done.
  - unfold key_equiv in Hk'. by rewrite Hlt, Hgt in Hk'.
Qed.

Lemma fold_add_point_fresh (points : list (double * double)) :
  ForallOrdPairs (λ a b, key_equiv a b = false) points.*1 →
  ∀ m,
    Forall (λ k, Forall (λ t, key_equiv k t = false) points.*1) m.*1 →
    fold_left add_point points m
    ≡ₚ m ++ ((λ p, (p.1, PrimFloat.add 0 p.2)) <$> points).
Proof.
  induction points as [|[k v] points IH]; simpl; intros Hp m Hm.
  - by rewrite app_nil_r.
  - inversion Hp as [|? ? Hk Hp']; subst.
    rewrite IH; [| done |].
    + unfold add_point. simpl. rewrite subscript_add_fresh.
      * by rewrite <- Permutation_middle.
      * eapply Forall_impl; [exact Hm|]. intros k' Hk'. simpl in Hk'.
        by inversion Hk'.
    + apply subscript_add_keys.
      * exact Hk.
      * eapply Forall_impl; [exact Hm|]. intros k' Hk'. simpl in Hk'.
        by inversion Hk'.
Qed.

Lemma distinct_times_key_equiv (l : list double) :
  Forall (λ x, PrimFloat.is_nan x = false) l →
  ForallOrdPairs (λ a b, PrimFloat.eqb a b = false) l →
  ForallOrdPairs (λ a b, key_equiv a b = false) l.
Proof.
  intros Hnan. induction 1 as [|a l Ha Hl IH]; [constructor|].
  inversion Hnan as [|? ? Hna Hnl]; subst.
  constructor; [|by apply IH].
  rewrite Forall_forall in Ha, Hnl. apply Forall_forall. intros b Hb.
  rewrite key_equiv_eqb; auto.
Qed.

Lemma int_of_size_t_le (n : N) : int_of_size_t n ≤ Z.of_N n.
Proof.
  unfold int_of_size_t.
  pose proof (Z.mod_le (Z.of_N n + 2 ^ 31) (2 ^ 32)). lia.
Qed.

Lemma size_t_of_int_small (z : Z) :
  0 ≤ z < 2 ^ 31 → size_t_of_int z = Z.to_N z.
Proof. intros Hz. unfold size_t_of_int. rewrite Z.mod_small; [done|lia]. Qed.

Lemma int_of_size_t_lt (n : N) : int_of_size_t n < 2 ^ 31.
Proof.
  unfold int_of_size_t.
  pose proof (Z.mod_pos_bound (Z.of_N n + 2 ^ 31) (2 ^ 32)). lia.
Qed.

Section MoreProperties.

Context (ostream_double lexical_cast_double : double → string).






Lemma chromatogramIdentity_Returns self (p : N) (ie : IndexEntry) :
  reachable ostream_double self →
  (chromatogramIdentity ostream_double p self).1 = Returns ie →
  index_of ostream_double (wifffile_ self) (sample self) !! N.to_nat p
  = Some ie.
Proof.
  intros Hself. rewrite chromatogramIdentity_reachable by done.
  destruct (_ <? p)%N; [done|].
  destruct (index_of _ _ _ !! _); [|done]. by intros [= ->].
Qed.



(** ** Calls after calls *)

(** X2: on a handle that answers its calls, whatever public call comes
    first on a catalog leaves it with the index built: the aggregate entry
    followed by the transitions of the bound sample, [size_] their number,
    the flag set. The object is then left as it is by every later call,
    which answers as the same call would have answered before: [size()] is
    the same at every call, and the index is neither built again nor
    extended. *)
Theorem index_built_by_first_call self (p p' : N) (id id' : string)
    (getBinaryData getBinaryData' : bool) :
  reachable ostream_double self →
  ∀ self',
    self' ∈ [(size ostream_double self).2;
             (chromatogramIdentity ostream_double p' self).2;
             (find ostream_double id' self).2;
             (chromatogram ostream_double lexical_cast_double p'
                getBinaryData' self).2] →
    index_ self'
    = TIC_entry 0
      :: imap (λ k c, SRM_entry ostream_double (wifffile_ self)
                        (sample self) (N.of_nat (S k)) c)
           (transitions_of (wifffile_ self) (sample self))
    ∧ size_ self'
      = N.of_nat (S (length (transitions_of (wifffile_ self) (sample self))))
    ∧ indexInitialized_ self' = true
    ∧ (size ostream_double self).1 = size_ self'
    ∧ (size ostream_double self').1 = size_ self'
    ∧ (chromatogramIdentity ostream_double p self').1
      = (chromatogramIdentity ostream_double p self).1
    ∧ (find ostream_double id self').1 = (find ostream_double id self).1
    ∧ (chromatogram ostream_double lexical_cast_double p getBinaryData
         self').1
      = (chromatogram ostream_double lexical_cast_double p getBinaryData
           self).1
    ∧ (size ostream_double self').2 = self'
    ∧ (chromatogramIdentity ostream_double p self').2 = self'
    ∧ (find ostream_double id self').2 = self'
    ∧ (chromatogram ostream_double lexical_cast_double p getBinaryData
         self').2 = self'.
Proof.
  intros Hself self' Hself'.
  assert (self' = call_once ostream_double self) as ->.
  { destruct (public_call_state ostream_double lexical_cast_double self p'
                id' getBinaryData') as (H1 & H2 & H3 & H4).
    rewrite !elem_of_cons in Hself'.
    destruct Hself' as [->|[->|[->|[->|Hnil]]]]; try done.
    by apply elem_of_nil in Hnil. }
  pose proof (call_once_again ostream_double self Hself) as Hagain.
  destruct (public_call_state ostream_double lexical_cast_double
              (call_once ostream_double self) p id getBinaryData)
    as (H1 & H2 & H3 & H4).
  rewrite H1, H2, H3, H4, Hagain.
  assert (Hbuilt : call_once ostream_double self
                   = indexed ostream_double (wifffile_ self) (sample self))
    by (by apply call_once_reachable).
  split; [by rewrite Hbuilt|].
  split; [rewrite Hbuilt; cbn [indexed size_]; by rewrite length_index_of|].
  split; [by rewrite Hbuilt|].
  unfold size, chromatogramIdentity, find, chromatogram. cbv zeta.
  by rewrite Hagain.
Qed.

(** ** The record of a transition *)

Lemma chromatogram_body_flag (wifffile : WiffFile) (p : N) (ie : IndexEntry)
    (r : Chromatogram) :
  chromatogram_body lexical_cast_double wifffile p ie true = Returns r →
  chromatogram_body lexical_cast_double wifffile p ie false
  = Returns (c_set_arrays [] [] r).
Proof.
  unfold chromatogram_body.
  destruct (ie_chromatogramType ie); cbv zeta;
    try (by intros [= <-]).
  - destruct (fullFileTIC wifffile); [|done]. by intros [= <-].
  - destruct (getSIC _ _). by intros [= <-].
Qed.

(** X6: [getBinaryData] decides the data of the two arrays and nothing else:
    the record returned without data is the record returned with data,
    its two arrays emptied. *)
Theorem binary_data_flag_only_arrays self (p : N) (r : Chromatogram) :
  reachable ostream_double self →
  (chromatogram ostream_double lexical_cast_double p true self).1
  = Returns r →
  (chromatogram ostream_double lexical_cast_double p false self).1
  = Returns (c_set_arrays [] [] r).
Proof.
  intros Hself. rewrite !chromatogram_reachable by done.
  destruct (_ <? p)%N; [done|].
  destruct (index_of _ _ _ !! _) as [ie|]; [|done].
  apply chromatogram_body_flag.
Qed.

(** X5: the record of a transition is the record of the entry that
    [chromatogramIdentity] returns for the same position: it has the
    position and the id of the entry, the target masses, dwell time,
    collision energy and declustering potential of the transition the
    entry names in the bound sample, and, when asked for, the time and
    intensity vectors of that transition as the handle gives them. *)
Theorem SRM_record_of_entry self (p : N) (ie : IndexEntry)
    (getBinaryData : bool) :
  reachable ostream_double self →
  (chromatogramIdentity ostream_double p self).1 = Returns ie →
  ie_chromatogramType ie = MS_SRM_chromatogram →
  let experiment :=
    getExperiment (wifffile_ self) (sample self)
      (ie_period ie) (ie_experiment ie) in
  let target := getSRM experiment (size_t_of_int (ie_transition ie)) in
  let sic := getSIC experiment (size_t_of_int (ie_transition ie)) in
  (chromatogram ostream_double lexical_cast_double p getBinaryData self).1
  = Returns
      (mkChromatogram p (ie_id ie)
         [mkCVParam MS_SRM_chromatogram None CVID_Unknown;
          mkCVParam MS_dwell_time (Some (dwellTime target)) CVID_Unknown]
         (N.of_nat (length sic.1))
         [mkCVParam MS_isolation_window_target_m_z (Some (Q1 target)) MS_m_z]
         [mkCVParam MS_CID None CVID_Unknown;
          mkCVParam MS_collision_energy (Some (collisionEnergy target))
            CVID_Unknown]
         [mkUserParam "MS_declustering_potential"
            (lexical_cast_double (declusteringPotential target)) "xs:float"]
         [mkCVParam MS_isolation_window_target_m_z (Some (Q3 target)) MS_m_z]
         (if getBinaryData then sic.1 else []) UO_minute
         (if getBinaryData then sic.2 else []) MS_number_of_counts).
Proof.
  intros Hself Hid Hkind.
  pose proof (chromatogramIdentity_Returns self p ie Hself Hid) as Hie.
  rewrite chromatogram_reachable by done.
  rewrite chromatogramIdentity_reachable in Hid by done.
  destruct (_ <? p)%N; [done|]. rewrite Hie. clear Hid.
  unfold index_of in Hie. destruct (N.to_nat p) as [|k]; simpl in Hie.
  { injection Hie as <-. discriminate. }
  rewrite list_lookup_imap in Hie.
  destruct (transitions_of _ _ !! k) as [[[ii iii] iiii]|]; [|done].
  injection Hie as <-. cbv zeta. unfold chromatogram_body. simpl.
  destruct (getSIC _ _) as [times intensities]. simpl.
  by destruct getBinaryData.
Qed.

(** ** The aggregate record on vectors of any length *)

(** X8: when every experiment has at least as many times as intensities, the
    aggregate record is built from the intensities and the times at the
    same places: a time past the last intensity of its experiment never
    gets into the record, which has at most as many points as there are
    intensities in the file (none, when there is none). *)
Theorem TIC_within_bounds self :
  reachable ostream_double self →
  (∀ e, e ∈ experiments_of (wifffile_ self) →
        (length (getTIC e).2 ≤ length (getTIC e).1)%nat
        ∧ (N.of_nat (length (getTIC e).2) < 2 ^ 31)%N) →
  ∃ r,
    (chromatogram ostream_double lexical_cast_double 0 true self).1
    = Returns r
    ∧ (∀ t', t' ∈ c_timeArray r →
         ∃ e, e ∈ experiments_of (wifffile_ self)
              ∧ t' ∈ take (length (getTIC e).2) (getTIC e).1)
    ∧ c_defaultArrayLength r = N.of_nat (length (c_timeArray r))
    ∧ length (c_intensityArray r) = length (c_timeArray r)
    ∧ (length (c_timeArray r)
       ≤ length (experiments_of (wifffile_ self) ≫= λ e, (getTIC e).2))%nat.
Proof.
  intros Hself Hbounds. rewrite chromatogram_TIC by done.
  unfold merged_TIC. rewrite merged_fold_in_bounds by done.
  eexists. split; [reflexivity|]. simpl. rewrite !length_fmap.
  repeat split.
  - apply Forall_forall. apply fold_add_point_keys; [|constructor].
    apply Forall_forall. intros t' ([t x] & -> & Hin)%list_elem_of_fmap.
    apply list_elem_of_bind in Hin as (e & Hin & He). exists e.
    split; [done|]. simpl.
    apply list_elem_of_lookup in Hin as [i Hi].
    apply lookup_zip_Some in Hi as [Ht Hx].
    apply list_elem_of_lookup. exists i.
    rewrite lookup_take_lt; [done|]. by eapply lookup_lt_Some.
  - etrans; [apply length_fold_add_point|]. simpl.
    induction (experiments_of (wifffile_ self)) as [|e es IH]; [done|].
    rewrite !bind_cons, !length_app, length_zip.
    assert (length (es ≫= λ e, zip (getTIC e).1 (getTIC e).2)
            ≤ length (es ≫= λ e, (getTIC e).2))%nat.
    { apply IH. intros e' He'. apply Hbounds. by right. }
    lia.
Qed.

(** X9: when some experiment of the file has fewer times than intensities,
    the aggregate loop reads [times] past its end: the call has no defined
    result, with or without data. *)
Theorem TIC_short_times_read_past_end self (e : Experiment)
    (getBinaryData : bool) :
  reachable ostream_double self →
  e ∈ experiments_of (wifffile_ self) →
  (length (getTIC e).1 < length (getTIC e).2)%nat →
  (N.of_nat (length (getTIC e).2) < 2 ^ 31)%N →
  (chromatogram ostream_double lexical_cast_double 0 getBinaryData self).1
  = Undefined.
Proof.
  intros Hself He Hlen Hsmall. rewrite chromatogram_TIC by done.
  unfold merged_TIC. by rewrite (merged_fold_short _ e).
Qed.

(** X7: when no time occurs twice in the file, the aggregate record is the
    points of all experiments put in ascending order of time: one point
    per source point, its intensity the source intensity added to the
    [0.0] of a new map node. *)
Theorem TIC_without_recurring_times self :
  reachable ostream_double self →
  TIC_regular_file (wifffile_ self) = true →
  ForallOrdPairs (λ t t', PrimFloat.eqb t t' = false)
    (TIC_points (wifffile_ self)).*1 →
  ∃ r,
    (chromatogram ostream_double lexical_cast_double 0 true self).1
    = Returns r
    ∧ zip (c_timeArray r) (c_intensityArray r)
      ≡ₚ (λ p, (p.1, PrimFloat.add 0 p.2)) <$> TIC_points (wifffile_ self)
    ∧ ascending (c_timeArray r)
    ∧ c_defaultArrayLength r
      = N.of_nat (length (TIC_points (wifffile_ self))).
Proof.
  intros Hself Hreg Hdistinct. rewrite chromatogram_TIC by done.
  destruct (merged_TIC_regular _ Hreg) as [-> Hnan].
  eexists. split; [reflexivity|]. simpl.
  assert (Hperm : fold_left add_point (TIC_points (wifffile_ self)) []
                  ≡ₚ (λ p, (p.1, PrimFloat.add 0 p.2))
                       <$> TIC_points (wifffile_ self)).
  { rewrite fold_add_point_fresh; [done| |constructor].
    by apply distinct_times_key_equiv. }
  rewrite zip_fst_snd. split; [done|]. split.
  - apply fold_add_point_ascending. constructor.
  - by rewrite Hperm, length_fmap.
Qed.

(** ** Kinds and coordinates of the entries *)


(** X11: the coordinates stored for a transition are coordinates the handle
    reported: period and experiment within their counts, and a transition
    number that, converted to [size_t] as [getSRM] and [getSIC] receive it,
    is below [getSRMSize()]. *)
Theorem entries_within_handle_counts self (p : N) (ie : IndexEntry) :
  reachable ostream_double self →
  (chromatogramIdentity ostream_double p self).1 = Returns ie →
  ie_chromatogramType ie = MS_SRM_chromatogram →
  1 ≤ ie_period ie ≤ getPeriodCount (wifffile_ self) (sample self)
  ∧ 1 ≤ ie_experiment ie
    ≤ getExperimentCount (wifffile_ self) (sample self) (ie_period ie)
  ∧ (size_t_of_int (ie_transition ie)
     < getSRMSize (getExperiment (wifffile_ self) (sample self)
                     (ie_period ie) (ie_experiment ie)))%N.
Proof.
  intros Hself Hie%chromatogramIdentity_Returns Hkind; [|done].
  unfold index_of in Hie. destruct (N.to_nat p) as [|k]; simpl in Hie.
  { injection Hie as <-. discriminate. }
  rewrite list_lookup_imap in Hie.
  destruct (transitions_of _ _ !! k) as [[[ii iii] iiii]|] eqn:Hk; [|done].
  injection Hie as <-. simpl.
  apply list_elem_of_lookup_2, transitions_of_elem in Hk
    as (Hii & Hiii & Hiiii).
  split; [done|]. split; [done|].
  pose proof (int_of_size_t_le (getSRMSize (getExperiment (wifffile_ self)
                (sample self) ii iii))).
  pose proof (int_of_size_t_lt (getSRMSize (getExperiment (wifffile_ self)
                (sample self) ii iii))).
  rewrite size_t_of_int_small by lia. lia.
Qed.

End MoreProperties.

(** ** The properties on the fixtures *)

Import Fixture.

Example same_time_TIC :
  (chromatogram show_double show_double 0 true (new same_time 1)).1
  = Returns (TIC_record true [(0x1.3ae147ae147aep+0, 12)]%float).
Proof. vm_compute. reflexivity. Qed.

Example same_time_TIC_length_only :
  (chromatogram show_double show_double 0 false (new same_time 1)).1
  = Returns (TIC_record false [(0x1.3ae147ae147aep+0, 12)]%float).
Proof. vm_compute. reflexivity. Qed.

Example two_samples_TIC :
  (chromatogram show_double show_double 0 true (new two_samples 1)).1
  = Returns
      (TIC_record true
         [(0.5, 3); (0x1.3ae147ae147aep+0, 12); (2, 1)]%float).
Proof. vm_compute. reflexivity. Qed.

Example two_samples_index :
  (λ ie, (ie_index ie, ie_id ie, ie_sample ie))
    <$> index_ (call_once show_double (new two_samples 1))
  = [(0%N, "TIC", 0);
     (1%N, "SRM SIC Q1=400 Q3=200 sample=1 period=1 experiment=1 transition=0", 1);
     (2%N, "SRM SIC Q1=500 Q3=250 sample=1 period=1 experiment=1 transition=1", 1);
     (3%N, "SRM SIC Q1=600 Q3=300 sample=1 period=1 experiment=2 transition=0", 1)].
Proof. vm_compute. reflexivity. Qed.

Example two_samples_SRM :
  (λ getBinaryData,
     match (chromatogram show_double show_double 2 getBinaryData
              (new two_samples 1)).1 with
     | Returns r =>
         Some (c_defaultArrayLength r, c_timeArray r, c_intensityArray r)
     | _ => None
     end) <$> [false; true]
  = [Some (2%N, [], []); Some (2%N, [1; 2]%float, [7; 9]%float)].
Proof. vm_compute. reflexivity. Qed.

Example two_samples_element_counts :
  true_element_count two_samples (TIC_entry 0) = 3%nat
  ∧ true_element_count two_samples
      (SRM_entry show_double two_samples 1 2 (1, 1, 1)) = 2%nat
  ∧ (λ p,
       match (chromatogram show_double show_double p false
                (new two_samples 1)).1 with
       | Returns r => Some (c_defaultArrayLength r)
       | _ => None
       end) <$> [0; 1; 2; 3]%N
    = [Some 3; Some 3; Some 2; Some 4]%N.
Proof. vm_compute. repeat split. Qed.

Example no_periods_positions :
  (size show_double (new no_periods 1)).1 = 1%N
  ∧ (chromatogramIdentity show_double 0 (new no_periods 1)).1
    = Returns (TIC_entry 0)
  ∧ (chromatogramIdentity show_double 1 (new no_periods 1)).1 = Undefined
  ∧ (chromatogramIdentity show_double 2 (new no_periods 1)).1
    = Throws "[ChromatogramList_ABI::chromatogramIdentity()] Bad index: 2"
  ∧ (chromatogram show_double show_double 2 true (new no_periods 1)).1
    = Throws "[ChromatogramList_ABI::chromatogram()] Bad index: 2".
Proof. vm_compute. repeat split. Qed.

Example no_periods_find_TIC :
  (find show_double "TIC" (new no_periods 1)).1 = 1%N.
Proof. vm_compute. reflexivity. Qed.

Lemma bad_index_at_size_not_rejected_witness :
  reachable show_double (new no_periods 1)
  ∧ (chromatogramIdentity show_double 1 (new no_periods 1)).1 = Undefined
  ∧ (chromatogram show_double show_double 1 true (new no_periods 1)).1
    = Undefined.
Proof.
  split; [constructor|].
  apply (bad_index_at_size_not_rejected show_double show_double
           (new no_periods 1) true).
  constructor.
Defined.

Lemma identity_position_witness :
  reachable show_double (new two_samples 1)
  ∧ (2 < (size show_double (new two_samples 1)).1)%N
  ∧ ∃ ie, (chromatogramIdentity show_double 2 (new two_samples 1)).1
          = Returns ie
          ∧ ie_index ie = 2%N.
Proof.
  split; [constructor|]. split; [reflexivity|].
  apply (identity_position show_double (new two_samples 1) 2);
    [constructor|reflexivity].
Defined.

Lemma find_always_size_witness :
  reachable show_double (new two_samples 1)
  ∧ idToIndexMap_ (call_once show_double (new two_samples 1)) = ∅
  ∧ (∀ id, (find show_double id (new two_samples 1)).1
           = (size show_double (new two_samples 1)).1)
  ∧ (find show_double "TIC" (new two_samples 1)).1
    = (size show_double (new two_samples 1)).1
  ∧ (∀ ie, ie ∈ index_ (call_once show_double (new two_samples 1)) →
           (find show_double (ie_id ie) (new two_samples 1)).1
           = (size show_double (new two_samples 1)).1).
Proof.
  split; [constructor|].
  apply (find_always_size show_double (new two_samples 1)). constructor.
Defined.

Lemma find_identity_id_not_position_witness :
  reachable show_double (new no_periods 1)
  ∧ (0 < (size show_double (new no_periods 1)).1)%N
  ∧ ∃ ie, (chromatogramIdentity show_double 0 (new no_periods 1)).1
          = Returns ie
          ∧ (find show_double (ie_id ie) (new no_periods 1)).1
            = (size show_double (new no_periods 1)).1
          ∧ (find show_double (ie_id ie) (new no_periods 1)).1 ≠ 0%N.
Proof.
  split; [constructor|]. split; [reflexivity|].
  apply (find_identity_id_not_position show_double (new no_periods 1) 0);
    [constructor|reflexivity].
Defined.

Lemma find_unassigned_id_size_witness :
  reachable show_double (new two_samples 1)
  ∧ (∀ ie, ie ∈ index_ (size show_double (new two_samples 1)).2 →
           ie_id ie ≠ "no such id")
  ∧ (find show_double "no such id" (new two_samples 1)).1
    = (size show_double (new two_samples 1)).1.
Proof.
  assert (Hids : ∀ ie, ie ∈ index_ (size show_double (new two_samples 1)).2 →
                       ie_id ie ≠ "no such id").
  { intros ie Hie%list_elem_of_In. vm_compute in Hie.
    destruct Hie as [<-|[<-|[<-|[<-|[]]]]]; vm_compute; discriminate. }
  split; [constructor|]. split; [exact Hids|].
  apply (find_unassigned_id_size show_double (new two_samples 1)
           "no such id"); [constructor|exact Hids].
Defined.

Lemma createIndex_TIC_then_transitions_witness :
  getPeriodCount no_periods 1 ≤ 0
  ∧ index_ (createIndex show_double (new no_periods 1)) = [TIC_entry 0]
  ∧ (size show_double (new no_periods 1)).1 = 1%N.
Proof.
  split; [vm_compute; discriminate|].
  apply (createIndex_TIC_then_transitions show_double no_periods 1).
  vm_compute. discriminate.
Defined.

Lemma default_length_without_binary_data_witness :
  reachable show_double (new two_samples 1)
  ∧ (0 < (size show_double (new two_samples 1)).1)%N
  ∧ (0%N = 0%N → TIC_regular_file (wifffile_ (new two_samples 1)) = true)
  ∧ ∃ ie r0 r1,
      (chromatogramIdentity show_double 0 (new two_samples 1)).1 = Returns ie
      ∧ (chromatogram show_double show_double 0 false (new two_samples 1)).1
        = Returns r0
      ∧ (chromatogram show_double show_double 0 true (new two_samples 1)).1
        = Returns r1
      ∧ c_timeArray r0 = [] ∧ c_intensityArray r0 = []
      ∧ c_defaultArrayLength r0
        = N.of_nat (true_element_count (wifffile_ (new two_samples 1)) ie)
      ∧ length (c_timeArray r1)
        = true_element_count (wifffile_ (new two_samples 1)) ie
      ∧ c_defaultArrayLength r0 = N.of_nat (length (c_timeArray r1))
      ∧ c_defaultArrayLength r1 = c_defaultArrayLength r0.
Proof.
  split; [constructor|]. split; [reflexivity|].
  split; [intros _; reflexivity|].
  apply (default_length_without_binary_data show_double show_double
           (new two_samples 1) 0); [constructor|reflexivity|].
  intros _. reflexivity.
Defined.

Lemma TIC_sums_intensities_by_time_witness :
  reachable show_double (new two_samples 1)
  ∧ TIC_regular_file (wifffile_ (new two_samples 1)) = true
  ∧ ∃ r,
      (chromatogram show_double show_double 0 true (new two_samples 1)).1
      = Returns r
      ∧ ascending (c_timeArray r)
      ∧ length (c_intensityArray r) = length (c_timeArray r)
      ∧ (∀ t', t' ∈ c_timeArray r →
               t' ∈ (TIC_points (wifffile_ (new two_samples 1))).*1)
      ∧ (∀ t, t ∈ (TIC_points (wifffile_ (new two_samples 1))).*1 →
           ∃ (k : nat) (t' : double),
             c_timeArray r !! k = Some t'
             ∧ PrimFloat.eqb t' t = true
             ∧ c_intensityArray r !! k
               = Some (sum_at t (TIC_points (wifffile_ (new two_samples 1))))
             ∧ (∀ (j : nat) (t'' : double),
                  c_timeArray r !! j = Some t'' →
                  PrimFloat.eqb t'' t = true → j = k)).
Proof.
  split; [constructor|]. split; [reflexivity|].
  apply (TIC_sums_intensities_by_time show_double show_double
           (new two_samples 1)); [constructor|reflexivity].
Defined.

Lemma TIC_spans_file_index_spans_sample_witness :
  reachable show_double (new two_samples 2)
  ∧ (∀ sample',
       (chromatogram show_double show_double 0 true
          (new (wifffile_ (new two_samples 2)) sample')).1
       = (chromatogram show_double show_double 0 true
            (new two_samples 2)).1)
  ∧ (∀ (k : nat) ie,
       index_ (call_once show_double (new two_samples 2)) !! S k = Some ie →
       ie_sample ie = sample (new two_samples 2)).
Proof.
  split; [constructor|].
  destruct (TIC_spans_file_index_spans_sample show_double show_double
              (new two_samples 2) true) as (_ & Hany & _ & Hbound);
    [constructor|].
  split; [exact Hany|exact Hbound].
Defined.

Example surplus_and_short_times :
  (chromatogram show_double show_double 0 true
     (new (one_experiment experiment_surplus) 1)).1
  = Returns (TIC_record true [(1, 5); (2, 6)]%float)
  ∧ (chromatogram show_double show_double 0 true
       (new (one_experiment experiment_short) 1)).1
    = Undefined.
Proof. vm_compute. split; reflexivity. Qed.

Example distinct_times_TIC :
  (chromatogram show_double show_double 0 true (new distinct_times 1)).1
  = Returns (TIC_record true [(1, 6); (1.5, 7); (2, 5)]%float).
Proof. vm_compute. reflexivity. Qed.

Lemma bad_index_above_size_witness :
  reachable show_double (new no_periods 1)
  ∧ ((size show_double (new no_periods 1)).1 < 5)%N
  ∧ (chromatogramIdentity show_double 5 (new no_periods 1)).1
    = Throws "[ChromatogramList_ABI::chromatogramIdentity()] Bad index: 5"
  ∧ (chromatogram show_double show_double 5 false (new no_periods 1)).1
    = Throws "[ChromatogramList_ABI::chromatogram()] Bad index: 5".
Proof.
  split; [constructor|]. split; [reflexivity|].
  apply (bad_index_above_size show_double show_double (new no_periods 1)
           5 false); [constructor|reflexivity].
Defined.

Lemma index_built_by_first_call_witness :
  reachable show_double (new two_samples 1)
  ∧ (chromatogram show_double show_double 0 true (new two_samples 1)).2
    ∈ [(size show_double (new two_samples 1)).2;
       (chromatogramIdentity show_double 3 (new two_samples 1)).2;
       (find show_double "TIC" (new two_samples 1)).2;
       (chromatogram show_double show_double 0 true (new two_samples 1)).2]
  ∧ index_ (chromatogram show_double show_double 0 true
              (new two_samples 1)).2
    = TIC_entry 0
      :: imap (λ k c, SRM_entry show_double two_samples 1 (N.of_nat (S k)) c)
           (transitions_of two_samples 1)
  ∧ size_ (chromatogram show_double show_double 0 true
             (new two_samples 1)).2
    = 4%N
  ∧ (size show_double
       (chromatogram show_double show_double 0 true (new two_samples 1)).2).1
    = (size show_double (new two_samples 1)).1
  ∧ (chromatogramIdentity show_double 2
       (chromatogram show_double show_double 0 true (new two_samples 1)).2).1
    = (chromatogramIdentity show_double 2 (new two_samples 1)).1.
Proof.
  assert (Hin :
    (chromatogram show_double show_double 0 true (new two_samples 1)).2
    ∈ [(size show_double (new two_samples 1)).2;
       (chromatogramIdentity show_double 3 (new two_samples 1)).2;
       (find show_double "TIC" (new two_samples 1)).2;
       (chromatogram show_double show_double 0 true (new two_samples 1)).2]).
  { do 3 right. left. }
  split; [constructor|]. split; [exact Hin|].
  destruct (index_built_by_first_call show_double show_double
              (new two_samples 1) 2 3 "SRM" "TIC" false true
              (reachable_new show_double two_samples 1) _ Hin)
    as (Hindex & Hsize_ & _ & Hsize0 & Hsize & Hidentity & _).
  split; [exact Hindex|]. split; [exact Hsize_|].
  split; [by rewrite Hsize, Hsize0|exact Hidentity].
Defined.



Lemma binary_data_flag_only_arrays_witness :
  reachable show_double (new two_samples 1)
  ∧ (chromatogram show_double show_double 0 true (new two_samples 1)).1
    = Returns
        (TIC_record true
           [(0.5, 3); (0x1.3ae147ae147aep+0, 12); (2, 1)]%float)
  ∧ (chromatogram show_double show_double 0 false (new two_samples 1)).1
    = Returns
        (c_set_arrays [] []
           (TIC_record true
              [(0.5, 3); (0x1.3ae147ae147aep+0, 12); (2, 1)]%float)).
Proof.
  split; [constructor|]. split; [vm_compute; reflexivity|].
  apply (binary_data_flag_only_arrays show_double show_double
           (new two_samples 1) 0); [constructor|vm_compute; reflexivity].
Defined.

Lemma SRM_record_of_entry_witness :
  reachable show_double (new two_samples 1)
  ∧ (chromatogramIdentity show_double 2 (new two_samples 1)).1
    = Returns (SRM_entry show_double two_samples 1 2 (1, 1, 1))
  ∧ ie_chromatogramType (SRM_entry show_double two_samples 1 2 (1, 1, 1))
    = MS_SRM_chromatogram
  ∧ (chromatogram show_double show_double 2 true (new two_samples 1)).1
    = Returns
        (mkChromatogram 2
           "SRM SIC Q1=500 Q3=250 sample=1 period=1 experiment=1 transition=1"
           [mkCVParam MS_SRM_chromatogram None CVID_Unknown;
            mkCVParam MS_dwell_time (Some 0x1.999999999999ap-4%float)
              CVID_Unknown]
           2
           [mkCVParam MS_isolation_window_target_m_z (Some 500%float) MS_m_z]
           [mkCVParam MS_CID None CVID_Unknown;
            mkCVParam MS_collision_energy (Some 35%float) CVID_Unknown]
           [mkUserParam "MS_declustering_potential" "80" "xs:float"]
           [mkCVParam MS_isolation_window_target_m_z (Some 250%float) MS_m_z]
           [1; 2]%float UO_minute [7; 9]%float MS_number_of_counts).
Proof.
  split; [constructor|]. split; [reflexivity|]. split; [reflexivity|].
  apply (SRM_record_of_entry show_double show_double (new two_samples 1) 2
           (SRM_entry show_double two_samples 1 2 (1, 1, 1)) true);
    [constructor|reflexivity..].
Defined.

Lemma TIC_within_bounds_witness :
  reachable show_double (new (one_experiment experiment_surplus) 1)
  ∧ (∀ e, e ∈ experiments_of (one_experiment experiment_surplus) →
          (length (getTIC e).2 ≤ length (getTIC e).1)%nat
          ∧ (N.of_nat (length (getTIC e).2) < 2 ^ 31)%N)
  ∧ ∃ r,
      (chromatogram show_double show_double 0 true
         (new (one_experiment experiment_surplus) 1)).1 = Returns r
      ∧ (∀ t', t' ∈ c_timeArray r →
           ∃ e, e ∈ experiments_of (one_experiment experiment_surplus)
                ∧ t' ∈ take (length (getTIC e).2) (getTIC e).1)
      ∧ c_defaultArrayLength r = N.of_nat (length (c_timeArray r))
      ∧ length (c_intensityArray r) = length (c_timeArray r)
      ∧ (length (c_timeArray r)
         ≤ length (experiments_of (one_experiment experiment_surplus)
                    ≫= λ e, (getTIC e).2))%nat.
Proof.
  assert (Hbounds :
    ∀ e, e ∈ experiments_of (one_experiment experiment_surplus) →
         (length (getTIC e).2 ≤ length (getTIC e).1)%nat
         ∧ (N.of_nat (length (getTIC e).2) < 2 ^ 31)%N).
  { intros e He%list_elem_of_In. vm_compute in He.
    destruct He as [<-|[]]. split; [simpl; lia|reflexivity]. }
  split; [constructor|]. split; [exact Hbounds|].
  apply (TIC_within_bounds show_double show_double
           (new (one_experiment experiment_surplus) 1));
    [constructor|exact Hbounds].
Defined.

Lemma TIC_short_times_read_past_end_witness :
  reachable show_double (new (one_experiment experiment_short) 1)
  ∧ experiment_short ∈ experiments_of (one_experiment experiment_short)
  ∧ (length (getTIC experiment_short).1
     < length (getTIC experiment_short).2)%nat
  ∧ (N.of_nat (length (getTIC experiment_short).2) < 2 ^ 31)%N
  ∧ (chromatogram show_double show_double 0 false
       (new (one_experiment experiment_short) 1)).1 = Undefined.
Proof.
  assert (Hin : experiment_short
                ∈ experiments_of (one_experiment experiment_short)).
  { apply list_elem_of_In. vm_compute. by left. }
  split; [constructor|]. split; [exact Hin|].
  split; [simpl; lia|]. split; [reflexivity|].
  apply (TIC_short_times_read_past_end show_double show_double
           (new (one_experiment experiment_short) 1) experiment_short false);
    [constructor|exact Hin|simpl; lia|reflexivity].
Defined.

Lemma TIC_without_recurring_times_witness :
  reachable show_double (new distinct_times 1)
  ∧ TIC_regular_file (wifffile_ (new distinct_times 1)) = true
  ∧ ForallOrdPairs (λ t t', PrimFloat.eqb t t' = false)
      (TIC_points (wifffile_ (new distinct_times 1))).*1
  ∧ ∃ r,
      (chromatogram show_double show_double 0 true (new distinct_times 1)).1
      = Returns r
      ∧ zip (c_timeArray r) (c_intensityArray r)
        ≡ₚ (λ p, (p.1, PrimFloat.add 0 p.2))
             <$> TIC_points (wifffile_ (new distinct_times 1))
      ∧ ascending (c_timeArray r)
      ∧ c_defaultArrayLength r
        = N.of_nat (length (TIC_points (wifffile_ (new distinct_times 1)))).
Proof.
  assert (Hdistinct :
    ForallOrdPairs (λ t t', PrimFloat.eqb t t' = false)
      (TIC_points (wifffile_ (new distinct_times 1))).*1).
  { vm_compute. repeat constructor. }
  split; [constructor|]. split; [reflexivity|]. split; [exact Hdistinct|].
  apply (TIC_without_recurring_times show_double show_double
           (new distinct_times 1)); [constructor|reflexivity|exact Hdistinct].
Defined.


Lemma entries_within_handle_counts_witness :
  reachable show_double (new two_samples 1)
  ∧ (chromatogramIdentity show_double 2 (new two_samples 1)).1
    = Returns (SRM_entry show_double two_samples 1 2 (1, 1, 1))
  ∧ ie_chromatogramType (SRM_entry show_double two_samples 1 2 (1, 1, 1))
    = MS_SRM_chromatogram
  ∧ 1 ≤ 1 ≤ getPeriodCount two_samples 1
  ∧ 1 ≤ 1 ≤ getExperimentCount two_samples 1 1
  ∧ (size_t_of_int 1 < getSRMSize (getExperiment two_samples 1 1 1))%N.
Proof.
  split; [constructor|]. split; [reflexivity|]. split; [reflexivity|].
  apply (entries_within_handle_counts show_double (new two_samples 1) 2
           (SRM_entry show_double two_samples 1 2 (1, 1, 1)));
    [constructor|reflexivity..].
Defined.
